(** * S3Client: a shallow embedding of [src/S3Client.py]

    The client is a thin layer over the provider SDK ([boto3.client('s3')]).
    Every method is a short program that issues SDK calls, inspects the
    returned dictionaries and either returns a value or lets an exception
    escape.  We model

    - Python control flow as a state-and-exception monad over the state of
      the provider ([Py]);
    - the SDK as an interface ([Boto3]), a record of operations in that
      monad, stored in the client like [self.client];
    - the methods of [S3Client] as programs over that interface;
    - a reference provider ([S3]) that implements the interface on an
      explicit account state, used to run the methods on concrete stores. *)

From Stdlib Require Import ZArith String Ascii List Bool Lia.
From stdpp Require Import base option list strings gmap.

Local Open Scope string_scope.
Local Open Scope Z_scope.

(** ** Python control flow *)

(** The exceptions the methods can meet.  [ClientError] carries the error
    code of the provider's response, as [botocore.exceptions.ClientError]
    does in [e.response['Error']['Code']]. *)
Inductive exn : Type :=
  | ClientError (code : string)
  | EndpointConnectionError
  | ParamValidationError
  | AttributeError
  | NotImplementedError.

Inductive outcome (A : Type) : Type :=
  | Returns (a : A)
  | Raises (e : exn).
Arguments Returns {A} a.
Arguments Raises {A} e.

Module Py.
(** A computation runs on the provider's state [W]; it ends by returning or
    by raising, and the state it reached is kept in both cases (Python
    does not roll back what the provider already did). *)
Definition M (W A : Type) : Type := W -> outcome A * W.

Definition ret {W A} (a : A) : M W A := fun w => (Returns a, w).

Definition raise {W A} (e : exn) : M W A := fun w => (Raises e, w).

Definition bind {W A B} (c : M W A) (k : A -> M W B) : M W B :=
  fun w => match c w with
           | (Returns a, w') => k a w'
           | (Raises e, w') => (Raises e, w')
           end.

(** [try: c  except: h] with a bare [except], which catches everything. *)
Definition try_except {W A} (c : M W A) (h : M W A) : M W A :=
  fun w => match c w with
           | (Returns a, w') => (Returns a, w')
           | (Raises _, w') => h w'
           end.

(** [for i in idx: s = body(i, s)] *)
Fixpoint for_each {W S} (idx : list nat) (body : nat -> S -> M W S) (s : S)
  : M W S :=
  match idx with
  | [] => ret s
  | i :: idx' => bind (body i s) (for_each idx' body)
  end.

(** The list of the results of [f] on the elements of [xs], left to right. *)
Fixpoint map_m {W A B} (f : A -> M W B) (xs : list A) : M W (list B) :=
  match xs with
  | [] => ret []
  | x :: xs' => bind (f x) (fun y => bind (map_m f xs') (fun ys => ret (y :: ys)))
  end.
End Py.

Notation "x <~ c ;; k" := (Py.bind c (fun x => k))
  (at level 100, c at next level, right associativity).

(** ** Data model *)

(** Modelled from the spec: the value types of [ObjectStorageClient.py]
    (imported by the client, not part of the sources at hand).  The
    attributes and their order are those of the spec's data model; the
    keyword arguments in [object_info] name the fields of [ObjectInfo]. *)
Record ContainerInfo : Type := mkContainerInfo {
  ci_name : string;
  ci_creation_date : option string;
  ci_region : option string
}.

Record ObjectInfo : Type := mkObjectInfo {
  name : string;
  bytes : option Z;
  hash : option string;
  content_type : option string;
  metadata : option (gmap string string)
}.

Record SubdirInfo : Type := mkSubdirInfo {
  sd_prefix : string
}.

(** What a cell of the list built by [object_list] can hold: the list starts
    with [ObjectInfo] values, the enrichment loop overwrites cells with the
    result of [object_info] (an [ObjectInfo] or [None]), and [SubdirInfo]
    values are appended. *)
Inductive entry : Type :=
  | EObject (o : ObjectInfo)
  | ENone
  | ESubdir (s : SubdirInfo).

Definition is_object (e : entry) : bool :=
  match e with EObject _ => true | _ => false end.

Definition is_subdir (e : entry) : bool :=
  match e with ESubdir _ => true | _ => false end.

(** ** The provider SDK *)

(** The dictionaries returned by the SDK, with the keys the client reads.
    A key that may be missing from the dictionary is an [option]. *)
Record ResponseMetadata : Type := mkResponseMetadata {
  HTTPStatusCode : option Z
}.

Record Response : Type := mkResponse {
  r_meta : option ResponseMetadata
}.

Record BucketEntry : Type := mkBucketEntry {
  Name : string;
  CreationDate : string
}.

Record ListBucketsOutput : Type := mkListBucketsOutput {
  lb_meta : option ResponseMetadata;
  Buckets : option (list BucketEntry)
}.

Record HeadObjectOutput : Type := mkHeadObjectOutput {
  ho_meta : option ResponseMetadata;
  ContentLength : option Z;
  ContentType : option string;
  ETag : option string;
  Metadata : option (gmap string string)
}.

Record ContentEntry : Type := mkContentEntry {
  Key : string;
  Size : Z;
  ce_ETag : string
}.

Record CommonPrefix : Type := mkCommonPrefix {
  Prefix : string
}.

Record ListObjectsV2Output : Type := mkListObjectsV2Output {
  lo_meta : option ResponseMetadata;
  Contents : option (list ContentEntry);
  CommonPrefixes : option (list CommonPrefix);
  IsTruncated : bool;
  NextContinuationToken : option nat
}.

(** The keyword arguments of the calls. *)
Record ListObjectsV2Request : Type := mkListObjectsV2Request {
  lq_Bucket : string;
  lq_Prefix : option string;
  lq_Delimiter : option string;
  lq_ContinuationToken : option nat
}.

Record CopyObjectRequest : Type := mkCopyObjectRequest {
  cq_Bucket : string;
  cq_Key : string;
  cq_CopySource : string * string;
  cq_Metadata : gmap string string;
  cq_MetadataDirective : string
}.

(** The operations of [boto3.client('s3')] that the client calls, over a
    provider state [W]. *)
Record Boto3 (W : Type) : Type := mkBoto3 {
  create_bucket : string -> string -> Py.M W Response;
  list_buckets : Py.M W ListBucketsOutput;
  delete_bucket : string -> Py.M W Response;
  head_bucket : string -> Py.M W Response;
  head_object : string -> string -> Py.M W HeadObjectOutput;
  copy_object : CopyObjectRequest -> Py.M W Response;
  list_objects_v2 : ListObjectsV2Request -> Py.M W ListObjectsV2Output
}.
Arguments create_bucket {W}.
Arguments list_buckets {W}.
Arguments delete_bucket {W}.
Arguments head_bucket {W}.
Arguments head_object {W}.
Arguments copy_object {W}.
Arguments list_objects_v2 {W}.

(** ** The client *)

(** [res.get('ResponseMetadata', {}).get('HTTPStatusCode') == 200] *)
Definition status_is_200 (m : option ResponseMetadata) : bool :=
  match m with
  | Some md => match HTTPStatusCode md with
               | Some code => code =? 200
               | None => false
               end
  | None => false
  end.

(** [if s:] on an optional string: [None] and the empty string are false. *)
Definition truthy (s : option string) : option string :=
  match s with
  | Some EmptyString => None
  | other => other
  end.

(** The double quote character (code 34), and the call of [str.replace]
    that deletes every occurrence of it. *)
Definition dquote : ascii := ascii_of_nat 34.

Fixpoint remove_dquotes (s : string) : string :=
  match s with
  | EmptyString => EmptyString
  | String c s' => if Ascii.eqb c dquote then remove_dquotes s'
                   else String c (remove_dquotes s')
  end.

(** The attributes of an [S3Client] instance.  [__init__] sets [client] and
    [location]; [container_name] is read by the object operations and is
    never assigned in this class.

    Modelled from the spec: [use_container] of the base class (not part of
    the sources at hand) selects the default container; [None] stands for
    a client on which it has not been called, where reading
    [self.container_name] raises [AttributeError]. *)
Record S3Client (W : Type) : Type := mkS3Client {
  client : Boto3 W;
  location : string;
  container_name : option string
}.
Arguments client {W}.
Arguments location {W}.
Arguments container_name {W}.
Arguments mkS3Client {W}.

Definition use_container {W} (self : S3Client W) (n : string) : S3Client W :=
  mkS3Client (client self) (location self) (Some n).

Section Client.
Context {W : Type}.
Implicit Types (self : S3Client W).

(** Reading [self.container_name]. *)
Definition self_container_name self : Py.M W string :=
  match container_name self with
  | Some n => Py.ret n
  | None => Py.raise AttributeError
  end.

(** *** Container related actions *)

(** [print(res)] writes to standard output, which is not part of the
    model. *)
Definition container_create self (container_name : string) : Py.M W bool :=
  Py.try_except
    (res <~ create_bucket (client self) container_name (location self) ;;
     Py.ret true)
    (Py.ret false).

Definition container_list self (prefix : option string)
  : Py.M W (list ContainerInfo) :=
  res <~ list_buckets (client self) ;;
  let buckets := default [] (Buckets res) in
  Py.ret (map (fun b => mkContainerInfo (Name b) None None) buckets).

Definition container_delete self (container_name : string) (force : bool)
  : Py.M W bool :=
  Py.try_except
    (res <~ delete_bucket (client self) container_name ;;
     Py.ret true)
    (Py.ret false).

Definition container_info self (container_name : string)
  : Py.M W (option ContainerInfo) :=
  result <~ head_bucket (client self) container_name ;;
  if status_is_200 (r_meta result)
  then Py.ret (Some (mkContainerInfo container_name None None))
  else Py.ret None.

(** *** Object related actions *)

(** [res.get('ETag')] is [None] when the response has no [ETag], and the
    call of [replace] on it raises [AttributeError]. *)
Definition object_info self (object_name : string)
  : Py.M W (option ObjectInfo) :=
  bucket <~ self_container_name self ;;
  res <~ head_object (client self) bucket object_name ;;
  if status_is_200 (ho_meta res) then
    match ETag res with
    | Some etag =>
        Py.ret (Some {| name := object_name;
                        bytes := ContentLength res;
                        content_type := ContentType res;
                        hash := Some (remove_dquotes etag);
                        metadata := Metadata res |})
    | None => Py.raise AttributeError
    end
  else Py.ret None.

Definition object_replace_metadata self (object_name : string)
    (meta : gmap string string) : Py.M W bool :=
  bucket <~ self_container_name self ;;
  res <~ copy_object (client self)
           {| cq_Bucket := bucket;
              cq_Key := object_name;
              cq_CopySource := (bucket, object_name);
              cq_Metadata := meta;
              cq_MetadataDirective := "REPLACE" |} ;;
  Py.ret (status_is_200 (r_meta res)).

Definition object_set_metadata self (object_name key value : string)
  : Py.M W bool := Py.raise NotImplementedError.

Definition object_delete_metadata self (object_name key : string)
  : Py.M W (gmap string string) := Py.raise NotImplementedError.

Definition object_delete self (object_name : string)
    (container_name : option string) : Py.M W bool :=
  Py.raise NotImplementedError.

(** [objects[i] = self.object_info(objects[i].name)]: the cell is read
    first; [None] has no attribute [name]. *)
Definition enrich_cell self (i : nat) (objects : list entry)
  : Py.M W (list entry) :=
  match objects !! i with
  | Some (EObject o) =>
      r <~ object_info self (name o) ;;
      Py.ret (<[i := from_option EObject ENone r]> objects)
  | Some (ESubdir _) | Some ENone | None => Py.raise AttributeError
  end.

Definition object_list self (fetch_metadata : bool)
    (prefix delimiter container_name : option string)
  : Py.M W (list entry) :=
  container_name <~ match container_name with
                    | None => self_container_name self
                    | Some n => Py.ret n
                    end ;;
  let args := {| lq_Bucket := container_name;
                 lq_Prefix := truthy prefix;
                 lq_Delimiter := truthy delimiter;
                 lq_ContinuationToken := None |} in
  res <~ list_objects_v2 (client self) args ;;
  if status_is_200 (lo_meta res) then
    let objects :=
      map (fun o => EObject (mkObjectInfo (Key o) (Some (Size o))
                               (Some (ce_ETag o)) None None))
          (default [] (Contents res)) in
    let subdirs :=
      map (fun o => ESubdir (mkSubdirInfo (Prefix o)))
          (default [] (CommonPrefixes res)) in
    objects <~ (if fetch_metadata
                then Py.for_each (seq 0 (length objects)) (enrich_cell self)
                       objects
                else Py.ret objects) ;;
    Py.ret (objects ++ subdirs)%list
  else Py.ret [].
End Client.

(** ** A reference provider

    An account at an S3-compatible provider, as the SDK lets the client see
    it: buckets in one global name space, each owned by some account and
    holding objects under keys; requests that fail raise [ClientError] with
    the provider's error code (the numeric status for [HEAD] requests, whose
    responses have no body), a request that cannot reach the provider raises
    a connection error.  A listing returns at most [max_keys] entries per
    request and says whether it was truncated. *)
Module S3.

Record stored_object : Type := mkStored {
  body : string;
  ctype : string;
  etag : string;
  meta : gmap string string
}.

Record bucket : Type := mkBucket {
  owner : string;
  region : string;
  created : string;
  objects : list (string * stored_object)
}.

Inductive request : Type :=
  | CreateBucket (b loc : string)
  | ListBuckets
  | DeleteBucket (b : string)
  | HeadBucket (b : string)
  | HeadObject (b k : string)
  | CopyObject (q : CopyObjectRequest)
  | ListObjectsV2 (q : ListObjectsV2Request).

(** [log] keeps the requests received, latest first. *)
Record world : Type := mkWorld {
  account : string;
  reachable : bool;
  authorized : bool;
  max_keys : nat;
  buckets : gmap string bucket;
  log : list request
}.

Definition set_buckets (bs : gmap string bucket) (w : world) : world :=
  mkWorld (account w) (reachable w) (authorized w) (max_keys w) bs (log w).

Definition record_request (r : request) (w : world) : world :=
  mkWorld (account w) (reachable w) (authorized w) (max_keys w) (buckets w)
    (r :: log w).

Definition set_objects (os : list (string * stored_object)) (b : bucket)
  : bucket :=
  mkBucket (owner b) (region b) (created b) os.

(** Objects of a bucket, in the order in which the bucket lists them
    (ascending keys). *)
Fixpoint find_key (k : string) (l : list (string * stored_object))
  : option stored_object :=
  match l with
  | [] => None
  | (k', o) :: l' => if String.eqb k k' then Some o else find_key k l'
  end.

Fixpoint put_key (k : string) (o : stored_object)
    (l : list (string * stored_object)) : list (string * stored_object) :=
  match l with
  | [] => [(k, o)]
  | (k', o') :: l' =>
      if String.eqb k k' then (k, o) :: l'
      else if String.ltb k k' then (k, o) :: (k', o') :: l'
      else (k', o') :: put_key k o l'
  end.

(** The object stored under key [k] of bucket [b], if any. *)
Definition stored (w : world) (b k : string) : option stored_object :=
  match buckets w !! b with
  | Some bk => find_key k (objects bk)
  | None => None
  end.

Definition ok (code : Z) : option ResponseMetadata :=
  Some (mkResponseMetadata (Some code)).

Definition quoted (s : string) : string :=
  String dquote (s ++ String dquote EmptyString).

(** The length rule of bucket names.  The provider's further rules on the
    characters of a name and on the location are not modelled: a creation
    that this provider accepts may be refused by a real one, so statements
    about a created container start from a creation that returned. *)
Definition valid_bucket_name (n : string) : bool :=
  ((3 <=? String.length n) && (String.length n <=? 63))%nat.

(** Every request is logged, needs the network and needs credentials
    that the provider accepts; [denied] is the error code of a refusal.
    The SDK's own check of bucket names and keys, which refuses ill-formed
    ones before any request, is not modelled: statements that name the
    exception of a request are about names that pass it. *)
Definition call {A} (r : request) (denied : string)
    (k : Py.M world A) : Py.M world A :=
  fun w =>
    let w := record_request r w in
    if negb (reachable w) then (Raises EndpointConnectionError, w)
    else if negb (authorized w) then (Raises (ClientError denied), w)
    else k w.

Definition fail {A} (code : string) : Py.M world A :=
  Py.raise (ClientError code).

Definition s3_create_bucket (n loc : string) : Py.M world Response :=
  call (CreateBucket n loc) "AccessDenied" (fun w =>
    if negb (valid_bucket_name n) then fail "InvalidBucketName" w
    else match buckets w !! n with
         | Some b => if String.eqb (owner b) (account w)
                     then fail "BucketAlreadyOwnedByYou" w
                     else fail "BucketAlreadyExists" w
         | None =>
             (Returns (mkResponse (ok 200)),
              set_buckets (<[n := mkBucket (account w) loc "now" []]>
                             (buckets w)) w)
         end).

Definition s3_list_buckets : Py.M world ListBucketsOutput :=
  call ListBuckets "AccessDenied" (fun w =>
    let mine := filter (fun nb => owner nb.2 = account w)
                  (map_to_list (buckets w)) in
    (Returns (mkListBucketsOutput (ok 200)
                (Some (map (fun nb => mkBucketEntry nb.1 (created nb.2))
                         mine))),
     w)).

Definition s3_delete_bucket (n : string) : Py.M world Response :=
  call (DeleteBucket n) "AccessDenied" (fun w =>
    match buckets w !! n with
    | None => fail "NoSuchBucket" w
    | Some b =>
        if negb (String.eqb (owner b) (account w)) then fail "AccessDenied" w
        else match objects b with
             | _ :: _ => fail "BucketNotEmpty" w
             | [] => (Returns (mkResponse (ok 204)),
                      set_buckets (delete n (buckets w)) w)
             end
    end).

Definition s3_head_bucket (n : string) : Py.M world Response :=
  call (HeadBucket n) "403" (fun w =>
    match buckets w !! n with
    | None => fail "404" w
    | Some b =>
        if negb (String.eqb (owner b) (account w)) then fail "403" w
        else (Returns (mkResponse (ok 200)), w)
    end).

Definition s3_head_object (n k : string) : Py.M world HeadObjectOutput :=
  call (HeadObject n k) "403" (fun w =>
    match buckets w !! n with
    | None => fail "404" w
    | Some b =>
        if negb (String.eqb (owner b) (account w)) then fail "403" w
        else match find_key k (objects b) with
             | None => fail "404" w
             | Some o =>
                 (Returns {| ho_meta := ok 200;
                             ContentLength :=
                               Some (Z.of_nat (String.length (body o)));
                             ContentType := Some (ctype o);
                             ETag := Some (quoted (etag o));
                             Metadata := Some (meta o) |},
                  w)
             end
    end).

(** The character code of [c] lies between [lo] and [hi]. *)
Definition in_range (lo hi : nat) (c : ascii) : bool :=
  ((lo <=? nat_of_ascii c) && (nat_of_ascii c <=? hi))%nat.

Fixpoint all_chars (f : ascii -> bool) (s : string) : bool :=
  match s with
  | EmptyString => true
  | String c s' => f c && all_chars f s'
  end.

(** Upper-case letters turned into lower case. *)
Definition lower_char (c : ascii) : ascii :=
  if in_range 65 90 c then ascii_of_nat (nat_of_ascii c + 32) else c.

Fixpoint lower (s : string) : string :=
  match s with
  | EmptyString => EmptyString
  | String c s' => String (lower_char c) (lower s')
  end.

(** The SDK checks user metadata before it sends anything: keys and values
    must be ASCII. *)
Definition ascii_metadata (m : gmap string string) : bool :=
  forallb (fun kv => all_chars (in_range 0 127) kv.1
                     && all_chars (in_range 0 127) kv.2)
    (map_to_list m).

(** The provider keeps the keys of user metadata in lower case. *)
Definition kept_metadata (m : gmap string string) : gmap string string :=
  list_to_map (map (fun kv => (lower kv.1, kv.2)) (map_to_list m)).

(** A copy keeps the body and its fingerprint.  Metadata that is not ASCII
    is refused by the SDK with [ParamValidationError] and no request is
    sent.  With the directive [REPLACE] the metadata of the request, its
    keys in lower case, replaces the source's, and the content type, which
    the client does not send, falls back to the provider's default; with any
    other directive the source's metadata is copied, which the provider
    refuses when source and destination are the same object. *)
Definition s3_copy_object (q : CopyObjectRequest) : Py.M world Response :=
  if negb (ascii_metadata (cq_Metadata q)) then Py.raise ParamValidationError
  else
  call (CopyObject q) "AccessDenied" (fun w =>
    match buckets w !! (cq_CopySource q).1, buckets w !! cq_Bucket q with
    | None, _ | _, None => fail "NoSuchBucket" w
    | Some src, Some dst =>
        if negb (String.eqb (owner src) (account w)
                 && String.eqb (owner dst) (account w))
        then fail "AccessDenied" w
        else match find_key (cq_CopySource q).2 (objects src) with
             | None => fail "NoSuchKey" w
             | Some o =>
                 if String.eqb (cq_MetadataDirective q) "REPLACE" then
                   let o' := mkStored (body o) "binary/octet-stream"
                               (etag o) (kept_metadata (cq_Metadata q)) in
                   (Returns (mkResponse (ok 200)),
                    set_buckets
                      (<[cq_Bucket q :=
                           set_objects (put_key (cq_Key q) o' (objects dst))
                             dst]> (buckets w)) w)
                 else if bool_decide (cq_CopySource q
                                      = (cq_Bucket q, cq_Key q))
                 then fail "InvalidRequest" w
                 else
                   (Returns (mkResponse (ok 200)),
                    set_buckets
                      (<[cq_Bucket q :=
                           set_objects (put_key (cq_Key q) o (objects dst))
                             dst]> (buckets w)) w)
             end
    end).

(** What a listing enumerates: a key with its object, or the group of the
    keys that share a prefix up to the delimiter. *)
Inductive listed : Type :=
  | Item (k : string) (o : stored_object)
  | Group (p : string).

(** The keys that start with [p], each rolled up into its group when the
    delimiter [d] occurs in it after [p]. *)
Definition classify (p : string) (d : option string)
    (ko : string * stored_object) : option listed :=
  if String.prefix p ko.1 then
    match d with
    | Some (String c d' as ds) =>
        match String.index (String.length p) ds ko.1 with
        | Some i =>
            Some (Group (String.substring 0 (i + String.length ds) ko.1))
        | None => Some (Item ko.1 ko.2)
        end
    | Some EmptyString | None => Some (Item ko.1 ko.2)
    end
  else None.

(** Each group is listed once, where its first key stands. *)
Fixpoint rollup (seen : list string) (es : list listed) : list listed :=
  match es with
  | [] => []
  | Item k o :: es' => Item k o :: rollup seen es'
  | Group p :: es' =>
      if bool_decide (p ∈ seen) then rollup seen es'
      else Group p :: rollup (p :: seen) es'
  end.

Definition enumerate (q : ListObjectsV2Request) (b : bucket) : list listed :=
  rollup [] (omap (classify (default EmptyString (lq_Prefix q))
                     (lq_Delimiter q)) (objects b)).

Definition content_of (e : listed) : option ContentEntry :=
  match e with
  | Item k o => Some (mkContentEntry k (Z.of_nat (String.length (body o)))
                        (quoted (etag o)))
  | Group _ => None
  end.

Definition group_of (e : listed) : option CommonPrefix :=
  match e with
  | Item _ _ => None
  | Group p => Some (mkCommonPrefix p)
  end.

(** A key of the response dictionary is absent when its list is empty. *)
Definition nonempty {A} (l : list A) : option (list A) :=
  match l with [] => None | _ => Some l end.

(** One page: the entries after the continuation token, at most
    [max_keys] of them, keys and groups counted alike. *)
Definition s3_list_objects_v2 (q : ListObjectsV2Request)
  : Py.M world ListObjectsV2Output :=
  call (ListObjectsV2 q) "AccessDenied" (fun w =>
    match buckets w !! lq_Bucket q with
    | None => fail "NoSuchBucket" w
    | Some b =>
        if negb (String.eqb (owner b) (account w)) then fail "AccessDenied" w
        else
          let start := default 0%nat (lq_ContinuationToken q) in
          let rest := drop start (enumerate q b) in
          let page := take (max_keys w) rest in
          let more := (max_keys w <? length rest)%nat in
          (Returns {| lo_meta := ok 200;
                      Contents := nonempty (omap content_of page);
                      CommonPrefixes := nonempty (omap group_of page);
                      IsTruncated := more;
                      NextContinuationToken :=
                        if more then Some (start + max_keys w)%nat
                        else None |},
           w)
    end).

Definition api : Boto3 world :=
  {| create_bucket := s3_create_bucket;
     list_buckets := s3_list_buckets;
     delete_bucket := s3_delete_bucket;
     head_bucket := s3_head_bucket;
     head_object := s3_head_object;
     copy_object := s3_copy_object;
     list_objects_v2 := s3_list_objects_v2 |}.

(** [S3Client(location)], then [use_container] when [selected] is given. *)
Definition new_client (loc : string) (selected : option string)
  : S3Client world :=
  mkS3Client api loc selected.

End S3.

(** ** Vocabulary of the statements *)

(** The cell written by the enrichment loop for a result of [object_info]. *)
Definition cell_of (r : option ObjectInfo) : entry := from_option EObject ENone r.

(** The [ObjectInfo] built from one element of [Contents]. *)
Definition listed_info (o : ContentEntry) : ObjectInfo :=
  mkObjectInfo (Key o) (Some (Size o)) (Some (ce_ETag o)) None None.

Definition listed_subdir (o : CommonPrefix) : entry :=
  ESubdir (mkSubdirInfo (Prefix o)).

(** The request that [object_list] sends. *)
Definition list_request (bucket : string) (prefix delimiter : option string)
  : ListObjectsV2Request :=
  {| lq_Bucket := bucket;
     lq_Prefix := truthy prefix;
     lq_Delimiter := truthy delimiter;
     lq_ContinuationToken := None |}.

(** The container that [object_list] lists: the argument when given, the
    selected one otherwise. *)
Definition listed_container {W} (self : S3Client W) (cn : option string)
  : option string :=
  match cn with
  | Some n => Some n
  | None => container_name self
  end.

(** The state [w] of the reference provider with another log: requests that
    only read leave the rest of the state alone. *)
Definition with_log (l : list S3.request) (w : S3.world) : S3.world :=
  S3.mkWorld (S3.account w) (S3.reachable w) (S3.authorized w) (S3.max_keys w)
    (S3.buckets w) l.

(** The caller owns bucket [b]. *)
Definition owns (w : S3.world) (b : string) : bool :=
  match S3.buckets w !! b with
  | Some bk => String.eqb (S3.owner bk) (S3.account w)
  | None => false
  end.

(** The [ObjectInfo] that [object_info] builds from the provider's answer
    about the object [so] stored under key [k]. *)
Definition stored_info (k : string) (so : S3.stored_object) : ObjectInfo :=
  {| name := k;
     bytes := Some (Z.of_nat (String.length (S3.body so)));
     hash := Some (remove_dquotes (S3.quoted (S3.etag so)));
     content_type := Some (S3.ctype so);
     metadata := Some (S3.meta so) |}.

(** The [ObjectInfo] that [object_list] builds for it without enrichment. *)
Definition plain_info (ko : string * S3.stored_object) : ObjectInfo :=
  mkObjectInfo ko.1 (Some (Z.of_nat (String.length (S3.body ko.2))))
    (Some (S3.quoted (S3.etag ko.2))) None None.

Definition entry_key (e : entry) : option string :=
  match e with
  | EObject o => Some (name o)
  | ENone | ESubdir _ => None
  end.

(** The contract that the specification gives [containerDelete] on a
    container that holds objects: without [force] the call fails with the
    error that the container is not empty; with [force] it succeeds and the
    container is gone. *)
Definition force_delete_contract (self : S3Client S3.world) (n : string)
    (w : S3.world) : Prop :=
  fst (container_delete self n false w) = Raises (ClientError "BucketNotEmpty")
  /\ fst (container_delete self n true w) = Returns true
  /\ S3.buckets (snd (container_delete self n true w)) !! n = None.

(** The listing [l] of bucket [b] is complete: as many entries as the bucket
    has objects, and their keys are the keys of the bucket, each once. *)
Definition complete_listing (w : S3.world) (b : string) (l : list entry)
  : Prop :=
  exists bk,
    S3.buckets w !! b = Some bk
    /\ length l = length (S3.objects bk)
    /\ omap entry_key l ≡ₚ map fst (S3.objects bk).

(** The contract that the specification gives [containerList]: the
    containers of the caller whose names start with the prefix. *)
Definition starts_with (p : option string) (c : ContainerInfo) : bool :=
  match p with
  | Some s => String.prefix s (ci_name c)
  | None => true
  end.

Definition returned {A} (o : outcome A) : bool :=
  match o with Returns _ => true | Raises _ => false end.

(** The contract that the specification gives [containerCreate], on a
    failure [e] of the provider's call: [false] when the container already
    exists under the caller's account, and a result other than the boolean
    [false] for every other failure. *)
Definition create_contract {W} (self : S3Client W) (n : string) (w : W) : Prop :=
  forall e w',
    create_bucket (client self) n (location self) w = (Raises e, w') ->
    (e = ClientError "BucketAlreadyOwnedByYou" ->
     fst (container_create self n w) = Returns false)
    /\ (e <> ClientError "BucketAlreadyOwnedByYou" ->
        fst (container_create self n w) <> Returns false).

(** ** Example stores *)

Module Examples.
Import S3.

Definition file (content : string) : stored_object :=
  mkStored content "text/plain" "e0" ∅.

Definition scan : stored_object :=
  mkStored "55555" "image/png" "e5" {["origin" := "scanner"]}.

(** The caller's account: [photos] with three objects, [scans] with one
    whose key is also a key of [photos], and a bucket of another
    account. *)
Definition store : gmap string bucket :=
  <["photos" := mkBucket "me" "us-west-2" "t0"
                  [("a/x", file "1"); ("a/y", file "22"); ("b", file "333")]]>
  (<["scans" := mkBucket "me" "us-west-2" "t1" [("b", scan)]]>
  (<["alien" := mkBucket "them" "us-west-2" "t2" []]> ∅)).

(** A provider whose pages hold two entries. *)
Definition online : world := mkWorld "me" true true 2 store [].
Definition offline : world := mkWorld "me" false true 2 store [].
Definition refused : world := mkWorld "me" true false 2 store [].

(** A client created for [us-west-2] on which [scans] was selected. *)
Definition s3 : S3Client world := new_client "us-west-2" (Some "scans").

(** A test double of the SDK that answers every listing with the recorded
    response [res] and knows no other operation. *)
Definition replay (res : ListObjectsV2Output) : Boto3 unit :=
  {| create_bucket := fun _ _ => Py.raise NotImplementedError;
     list_buckets := Py.raise NotImplementedError;
     delete_bucket := fun _ => Py.raise NotImplementedError;
     head_bucket := fun _ => Py.raise NotImplementedError;
     head_object := fun _ _ => Py.raise NotImplementedError;
     copy_object := fun _ => Py.raise NotImplementedError;
     list_objects_v2 := fun _ => Py.ret res |}.

(** A listing answered with status 503 and no exception. *)
Definition unavailable : ListObjectsV2Output :=
  {| lo_meta := Some (mkResponseMetadata (Some 503));
     Contents := None;
     CommonPrefixes := None;
     IsTruncated := false;
     NextContinuationToken := None |}.
End Examples.

(** ** Further vocabulary and test doubles *)

(** The string holds a double quote. *)
Fixpoint has_dquote (s : string) : bool :=
  match s with
  | EmptyString => false
  | String c s' => Ascii.eqb c dquote || has_dquote s'
  end.

(** A test double of the SDK that answers every [head_object] with the
    recorded response [res] and knows no other operation. *)
Definition replay_head (res : HeadObjectOutput) : Boto3 unit :=
  {| create_bucket := fun _ _ => Py.raise NotImplementedError;
     list_buckets := Py.raise NotImplementedError;
     delete_bucket := fun _ => Py.raise NotImplementedError;
     head_bucket := fun _ => Py.raise NotImplementedError;
     head_object := fun _ _ => Py.ret res;
     copy_object := fun _ => Py.raise NotImplementedError;
     list_objects_v2 := fun _ => Py.raise NotImplementedError |}.

(** An answer with status 200 that lacks the [ETag] key. *)
Definition no_etag : HeadObjectOutput :=
  {| ho_meta := Some (mkResponseMetadata (Some 200));
     ContentLength := Some 7;
     ContentType := Some "text/plain";
     ETag := None;
     Metadata := None |}.

(** Whether the provider accepts a request of the caller at all. *)
Definition serving (w : S3.world) : bool :=
  S3.reachable w && S3.authorized w.

(** The bucket that [create_bucket] makes for the caller. *)
Definition fresh_bucket (w : S3.world) (loc : string) : S3.bucket :=
  S3.mkBucket (S3.account w) loc "now" [].

(** The caller owns bucket [n] and it holds no object. *)
Definition owns_empty (w : S3.world) (n : string) : bool :=
  match S3.buckets w !! n with
  | Some bk => String.eqb (S3.owner bk) (S3.account w)
               && match S3.objects bk with [] => true | _ :: _ => false end
  | None => false
  end.

(** [create_bucket] will make bucket [n]: the provider serves the caller,
    the name is valid and not taken in the global name space. *)
Definition creatable (w : S3.world) (n : string) : bool :=
  serving w && S3.valid_bucket_name n
  && match S3.buckets w !! n with Some _ => false | None => true end.

(** [delete_bucket] will remove bucket [n]. *)
Definition deletable (w : S3.world) (n : string) : bool :=
  serving w && owns_empty w n.

(** ** Well-formed arguments *)

(** A character of a metadata key that the provider stores as it is: a
    lower-case letter, a digit, a hyphen, a dot or an underscore. *)
Definition key_char (c : ascii) : bool :=
  S3.in_range 97 122 c || S3.in_range 48 57 c || S3.in_range 45 46 c
  || S3.in_range 95 95 c.

(** A visible ASCII character. *)
Definition value_char (c : ascii) : bool := S3.in_range 33 126 c.

Definition nonempty_string (s : string) : bool :=
  match s with EmptyString => false | String _ _ => true end.

Definition valid_entry (kv : string * string) : bool :=
  nonempty_string kv.1 && S3.all_chars key_char kv.1
  && nonempty_string kv.2 && S3.all_chars value_char kv.2.

(** The bytes that a metadata mapping takes: keys and values together. *)
Definition metadata_size (m : gmap string string) : nat :=
  list_sum (map (fun kv : string * string =>
                   (String.length kv.1 + String.length kv.2)%nat)
              (map_to_list m)).

(** User metadata that the SDK sends and the provider stores unchanged:
    keys of key characters, values of visible ASCII characters, none empty,
    within the provider's limit of 2 KB. *)
Definition valid_metadata (m : gmap string string) : bool :=
  forallb valid_entry (map_to_list m) && (metadata_size m <=? 2048)%nat.

(** A bucket name of 3 to 63 lower-case letters and digits: a name that both
    the SDK and the provider accept. *)
Definition plain_bucket_name (n : string) : bool :=
  ((3 <=? String.length n) && (String.length n <=? 63))%nat
  && S3.all_chars (fun c => S3.in_range 97 122 c || S3.in_range 48 57 c) n.

(** * Properties *)

(** ** The monad *)

Section PyFacts.
Context {W : Type}.

Lemma bind_returns {A B} (c : Py.M W A) (k : A -> Py.M W B) w a w' :
  c w = (Returns a, w') -> Py.bind c k w = k a w'.
Proof. intros E. unfold Py.bind. now rewrite E. Qed.

Lemma bind_raises {A B} (c : Py.M W A) (k : A -> Py.M W B) w e w' :
  c w = (Raises e, w') -> Py.bind c k w = (Raises e, w').
Proof. intros E. unfold Py.bind. now rewrite E. Qed.

Lemma bind_inv {A B} (c : Py.M W A) (k : A -> Py.M W B) w b w' :
  Py.bind c k w = (Returns b, w') ->
  exists a w1, c w = (Returns a, w1) /\ k a w1 = (Returns b, w').
Proof.
  unfold Py.bind. destruct (c w) as [[a|e] w1]; intros E.
  - now exists a, w1.
  - discriminate.
Qed.

Lemma bind_assoc {A B C} (c : Py.M W A) (k : A -> Py.M W B)
    (k' : B -> Py.M W C) w :
  Py.bind (Py.bind c k) k' w = Py.bind c (fun a => Py.bind (k a) k') w.
Proof. unfold Py.bind. now destruct (c w) as [[a|e] w1]. Qed.

Lemma bind_ret_snd {A B} (c : Py.M W A) (g : A -> B) w :
  snd (Py.bind c (fun a => Py.ret (g a)) w) = snd (c w).
Proof. unfold Py.bind, Py.ret. now destruct (c w) as [[a|e] w1]. Qed.

Lemma bind_ret_fst {A B} (c : Py.M W A) (g : A -> B) w b :
  fst (Py.bind c (fun a => Py.ret (g a)) w) = Returns b ->
  exists a, fst (c w) = Returns a /\ b = g a.
Proof.
  unfold Py.bind, Py.ret. destruct (c w) as [[a|e] w1]; cbn; intros E.
  - injection E as <-. eauto.
  - discriminate.
Qed.

Lemma bind_congr {A B} (c c' : Py.M W A) (k : A -> Py.M W B) w :
  c w = c' w -> Py.bind c k w = Py.bind c' k w.
Proof. unfold Py.bind. now intros ->. Qed.

(** A list mapped in the monad has one result per element, in order. *)
Lemma map_m_inv {A B} (f : A -> Py.M W B) xs w ys w' :
  Py.map_m f xs w = (Returns ys, w') ->
  length ys = length xs
  /\ forall i x y, xs !! i = Some x -> ys !! i = Some y ->
       exists w1 w2, f x w1 = (Returns y, w2).
Proof.
  revert w ys. induction xs as [|x xs IH]; intros w ys E; simpl in E.
  - injection E as <- <-. split; [reflexivity | intros i ? ? H; destruct i; discriminate].
  - apply bind_inv in E as (y & w1 & Ey & E).
    apply bind_inv in E as (ys' & w2 & Eys & E).
    injection E as <- <-.
    destruct (IH _ _ Eys) as [Hlen Hnth]. split; [simpl; now f_equal |].
    intros [|i] x' y' Hx Hy; simpl in Hx, Hy.
    + injection Hx as <-. injection Hy as <-. eauto.
    + eauto.
Qed.
End PyFacts.

(** ** The client over any provider *)

Section ClientFacts.
Context {W : Type}.
Implicit Types (self : S3Client W) (w : W).

(** The enrichment loop visits the cells from left to right and writes
    each result where the object stood: it is a monadic map. *)
Lemma enrich_loop self (pre : list entry) (os : list ObjectInfo) w :
  Py.for_each (seq (length pre) (length os)) (enrich_cell self)
    (pre ++ map EObject os)%list w
  = (rs <~ Py.map_m (fun o => object_info self (name o)) os ;;
     Py.ret (pre ++ map cell_of rs)%list) w.
Proof.
  revert pre w. induction os as [|o os IH]; intros pre w.
  - reflexivity.
  - cbn [length seq map Py.for_each Py.map_m].
    rewrite !bind_assoc.
    assert (Hcell : enrich_cell self (length pre)
                      (pre ++ EObject o :: map EObject os)%list w
                    = (r <~ object_info self (name o) ;;
                       Py.ret ((pre ++ [cell_of r]) ++ map EObject os)%list) w).
    { unfold enrich_cell. rewrite lookup_app_r by lia.
      rewrite Nat.sub_diag. cbn [lookup list_lookup].
      unfold Py.bind. destruct (object_info self (name o) w) as [[r|e] w1];
        [|reflexivity].
      unfold Py.ret. do 2 f_equal.
      rewrite insert_app_r_alt by lia. rewrite Nat.sub_diag. cbn.
      now rewrite <- app_assoc. }
    rewrite (bind_congr _ _ _ _ Hcell). rewrite bind_assoc.
    destruct (object_info self (name o) w) as [[r|e] w1] eqn:E.
    + rewrite !(bind_returns _ _ _ _ _ E).
      rewrite (bind_returns _ _ w1 _ w1) by reflexivity.
      specialize (IH (pre ++ [cell_of r])%list w1).
      rewrite length_app in IH. cbn [length] in IH.
      replace (length pre + 1)%nat with (S (length pre)) in IH by lia.
      rewrite IH. rewrite bind_assoc. unfold Py.bind.
      destruct (Py.map_m _ os w1) as [[rs|e] w2]; [|reflexivity].
      unfold Py.ret. now rewrite <- app_assoc.
    + now rewrite !(bind_raises _ _ _ _ _ E).
Qed.

(** [object_list] as one request followed, on status 200, by the optional
    enrichment of the objects and the subdirectories at the end. *)
Lemma object_list_unfold self fetch_metadata prefix delimiter cn bucket w :
  listed_container self cn = Some bucket ->
  object_list self fetch_metadata prefix delimiter cn w
  = (res <~ list_objects_v2 (client self) (list_request bucket prefix delimiter) ;;
     if status_is_200 (lo_meta res) then
       let contents := default [] (Contents res) in
       let subdirs := map listed_subdir (default [] (CommonPrefixes res)) in
       if fetch_metadata then
         rs <~ Py.map_m (fun o => object_info self (Key o)) contents ;;
         Py.ret (map cell_of rs ++ subdirs)%list
       else Py.ret (map (fun o => EObject (listed_info o)) contents ++ subdirs)%list
     else Py.ret []) w.
Proof.
  intros Hb. unfold object_list.
  assert (Hres : (match cn with
                  | None => self_container_name self
                  | Some n => Py.ret n
                  end) w = (Returns bucket, w)).
  { destruct cn as [n|]; cbn in Hb.
    - now injection Hb as ->.
    - unfold self_container_name. now rewrite Hb. }
  rewrite (bind_returns _ _ _ _ _ Hres). fold (list_request bucket prefix delimiter).
  unfold Py.bind at 1 3.
  destruct (list_objects_v2 _ _ w) as [[res|e] w1]; [|reflexivity].
  destruct (status_is_200 (lo_meta res)); [|reflexivity].
  cbv zeta. destruct fetch_metadata.
  - change (fun o => EObject (mkObjectInfo (Key o) (Some (Size o))
                                (Some (ce_ETag o)) None None))
      with (fun o => EObject (listed_info o)).
    rewrite <- (map_map listed_info EObject).
    set (objs := map listed_info (default [] (Contents res))).
    rewrite length_map.
    rewrite (bind_congr _ _ _ _ (enrich_loop self [] objs w1)).
    rewrite bind_assoc. subst objs. cbn [app].
    unfold Py.bind.
    assert (Hm : forall l w2,
               Py.map_m (fun o => object_info self (name o)) (map listed_info l) w2
               = Py.map_m (fun o => object_info self (Key o)) l w2).
    { induction l as [|o l IHl]; intros w2; [reflexivity|].
      cbn [map Py.map_m]. unfold Py.bind. cbn [listed_info name].
      destruct (object_info self (Key o) w2) as [[r|e] w3]; [|reflexivity].
      now rewrite IHl. }
    rewrite Hm.
    destruct (Py.map_m _ _ w1) as [[rs|e] w2]; reflexivity.
  - reflexivity.
Qed.
End ClientFacts.


(** ** Container creation *)


(** C1, as amended: [container_create] never raises; it returns [True] when
    the provider's call returns and [False] whenever that call raises,
    whatever the failure, leaving the provider in the state the call
    reached. *)
Theorem container_create_collapses_failures {W} (self : S3Client W) n w :
  container_create self n w
  = (Returns (returned (fst (create_bucket (client self) n (location self) w))),
     snd (create_bucket (client self) n (location self) w)).
Proof.
  unfold container_create, Py.try_except, Py.bind, Py.ret.
  now destruct (create_bucket _ _ _ w) as [[r|e] w'].
Qed.

(** C1, as stated, fails: when the provider is unreachable the network
    fault is answered with the same [False] as an existing container. *)
Lemma container_create_swallows_network_fault :
  ~ create_contract Examples.s3 "photos" Examples.offline.
Proof.
  intros H.
  destruct (H EndpointConnectionError
              (S3.record_request (S3.CreateBucket "photos" "us-west-2")
                 Examples.offline) eq_refl) as [_ Hother].
  apply Hother; [discriminate | reflexivity].
Qed.

(** The other failures named by the specification end the same way. *)
Example container_create_existing :
  fst (container_create Examples.s3 "photos" Examples.online) = Returns false.
Proof. reflexivity. Qed.

Example container_create_invalid_name :
  fst (container_create Examples.s3 "ph" Examples.online) = Returns false.
Proof. reflexivity. Qed.

Example container_create_refused :
  fst (container_create Examples.s3 "archive" Examples.refused) = Returns false.
Proof. reflexivity. Qed.

Example container_create_fresh :
  fst (container_create Examples.s3 "archive" Examples.online) = Returns true.
Proof. reflexivity. Qed.

(** ** Listing: status and order of the result *)

Section ListingFacts.
Context {W : Type}.
Implicit Types (self : S3Client W) (w : W).

(** A call of [object_list] that returns has listed some container. *)
Lemma object_list_returns_listed self fm p d cn w l w' :
  object_list self fm p d cn w = (Returns l, w') ->
  exists bucket, listed_container self cn = Some bucket.
Proof.
  destruct cn as [n|]; cbn; [eauto |].
  destruct (container_name self) as [n|] eqn:E; [eauto |].
  unfold object_list, Py.bind, self_container_name. rewrite E.
  discriminate.
Qed.

(** The shape of every returned list: one cell per element of [Contents],
    none of them a subdirectory, then the subdirectories. *)
Lemma object_list_shape self fm p d cn bucket w l w' :
  listed_container self cn = Some bucket ->
  object_list self fm p d cn w = (Returns l, w') ->
  exists res w1 front,
    list_objects_v2 (client self) (list_request bucket p d) w = (Returns res, w1)
    /\ (status_is_200 (lo_meta res) = false -> l = [] /\ w' = w1)
    /\ (status_is_200 (lo_meta res) = true ->
        l = (front ++ map listed_subdir (default [] (CommonPrefixes res)))%list
        /\ length front = length (default [] (Contents res))
        /\ Forall (fun e => is_subdir e = false) front).
Proof.
  intros Hb E. rewrite (object_list_unfold _ _ _ _ _ _ _ Hb) in E.
  apply bind_inv in E as (res & w1 & Eres & E).
  exists res, w1. destruct (status_is_200 (lo_meta res)) eqn:Hs.
  - cbv zeta in E. destruct fm.
    + apply bind_inv in E as (rs & w2 & Ers & E). injection E as <- <-.
      exists (map cell_of rs). split; [assumption|]. split; [discriminate|].
      intros _. split; [reflexivity|]. split.
      * rewrite length_map. now apply map_m_inv in Ers as [-> _].
      * apply Forall_forall. intros e He. apply list_elem_of_In in He.
        apply in_map_iff in He as (r & <- & _). now destruct r.
    + injection E as <- <-.
      exists (map (fun o => EObject (listed_info o)) (default [] (Contents res))).
      split; [assumption|]. split; [discriminate|].
      intros _. split; [reflexivity|]. split; [apply length_map|].
      apply Forall_forall. intros e He. apply list_elem_of_In in He.
      now apply in_map_iff in He as (r & <- & _).
  - injection E as <- <-. exists []. split; [assumption|].
    split; [easy | discriminate].
Qed.
End ListingFacts.

(** C9: when the provider answers the listing request with a status other
    than 200 and no exception, [object_list] returns the empty list and
    raises nothing; a listing answered with status 200 and neither keys nor
    prefixes returns the same empty list, so the caller cannot tell the two
    apart. *)
Theorem object_list_non_200_is_empty {W} (self : S3Client W)
    fm p d cn bucket w res w' :
  listed_container self cn = Some bucket ->
  list_objects_v2 (client self) (list_request bucket p d) w = (Returns res, w') ->
  status_is_200 (lo_meta res) = false ->
  object_list self fm p d cn w = (Returns [], w')
  /\ forall (self0 : S3Client W) w0 res0 w0',
       listed_container self0 cn = Some bucket ->
       list_objects_v2 (client self0) (list_request bucket p d) w0
       = (Returns res0, w0') ->
       status_is_200 (lo_meta res0) = true ->
       default [] (Contents res0) = [] ->
       default [] (CommonPrefixes res0) = [] ->
       fst (object_list self0 fm p d cn w0) = fst (object_list self fm p d cn w).
Proof.
  intros Hb Hres Hs.
  assert (E : object_list self fm p d cn w = (Returns [], w')).
  { rewrite (object_list_unfold _ _ _ _ _ _ _ Hb).
    rewrite (bind_returns _ _ _ _ _ Hres). now rewrite Hs. }
  split; [exact E|].
  intros self0 w0 res0 w0' Hb0 Hres0 Hs0 Hc Hp. rewrite E.
  rewrite (object_list_unfold _ _ _ _ _ _ _ Hb0).
  rewrite (bind_returns _ _ _ _ _ Hres0). rewrite Hs0. cbv zeta.
  rewrite Hc, Hp. now destruct fm.
Qed.

Lemma object_list_non_200_is_empty_witness :
  object_list (mkS3Client (Examples.replay Examples.unavailable) "us-west-2" None)
    true None None (Some "photos") tt = (Returns [], tt).
Proof.
  exact (proj1 (object_list_non_200_is_empty
                  (mkS3Client (Examples.replay Examples.unavailable)
                     "us-west-2" None)
                  true None None (Some "photos") "photos" tt
                  Examples.unavailable tt eq_refl eq_refl eq_refl)).
Defined.

(** C10: in every list that [object_list] returns, each [ObjectInfo] stands
    before each [SubdirInfo]. *)
Theorem object_list_objects_before_subdirs {W} (self : S3Client W)
    fm p d cn w l w' :
  object_list self fm p d cn w = (Returns l, w') ->
  forall i j s o,
    l !! i = Some (ESubdir s) -> l !! j = Some (EObject o) -> (j < i)%nat.
Proof.
  intros E i j s o Hi Hj.
  destruct (object_list_returns_listed _ _ _ _ _ _ _ _ E) as [bucket Hb].
  destruct (object_list_shape _ _ _ _ _ _ _ _ _ Hb E)
    as (res & w1 & front & _ & Hbad & Hok).
  destruct (status_is_200 (lo_meta res)).
  - destruct (Hok eq_refl) as (-> & _ & Hfront).
    assert (Hi' : (length front <= i)%nat).
    { destruct (Nat.le_gt_cases (length front) i) as [|Hlt]; [assumption|].
      rewrite lookup_app_l in Hi by assumption.
      rewrite Forall_forall in Hfront.
      assert (Hin : ESubdir s ∈ front) by (apply list_elem_of_lookup; eauto).
      specialize (Hfront _ Hin). discriminate. }
    destruct (Nat.le_gt_cases (length front) j) as [Hge|]; [|lia].
    rewrite lookup_app_r in Hj by assumption.
    apply list_elem_of_lookup_2, list_elem_of_In, in_map_iff in Hj
      as (c & Hc & _). discriminate.
  - destruct (Hbad eq_refl) as [-> _]. destruct i; discriminate.
Qed.

Lemma object_list_objects_before_subdirs_witness :
  fst (object_list Examples.s3 false None (Some "/") (Some "photos")
         Examples.online)
  = Returns [EObject (plain_info ("b", Examples.file "333"));
             ESubdir (mkSubdirInfo "a/")]
  /\ (0 < 1)%nat.
Proof.
  split; [reflexivity|].
  exact (object_list_objects_before_subdirs Examples.s3 false None (Some "/")
           (Some "photos") Examples.online _ _ eq_refl 1%nat 0%nat
           (mkSubdirInfo "a/") (plain_info ("b", Examples.file "333"))
           eq_refl eq_refl).
Defined.

(** ** The client on the reference provider *)

Section ReferenceFacts.
Import S3.
Implicit Types (w : world) (b k : string).


Lemma find_key_put_eq k o l : find_key k (put_key k o l) = Some o.
Proof.
  induction l as [|[k' o'] l IH]; cbn.
  - now rewrite String.eqb_refl.
  - destruct (String.eqb k k') eqn:E; cbn.
    + now rewrite String.eqb_refl.
    + destruct (String.ltb k k'); cbn.
      * now rewrite String.eqb_refl.
      * now rewrite E.
Qed.

Lemma find_key_put_ne k k' o l :
  k' <> k -> find_key k' (put_key k o l) = find_key k' l.
Proof.
  intros Hne. apply String.eqb_neq in Hne.
  induction l as [|[k0 o0] l IH]; cbn.
  - now rewrite Hne.
  - destruct (String.eqb k k0) eqn:E; cbn.
    + apply String.eqb_eq in E as <-. now rewrite Hne.
    + destruct (String.ltb k k0); cbn.
      * now rewrite Hne.
      * now rewrite IH.
Qed.

(** *** Deleting containers *)

Lemma container_delete_ignores_force {W} (self : S3Client W) n force :
  container_delete self n force = container_delete self n false.
Proof. reflexivity. Qed.

Lemma container_delete_absent loc sel n force w :
  buckets w !! n = None ->
  container_delete (new_client loc sel) n force w
  = (Returns false, record_request (DeleteBucket n) w).
Proof.
  intros Hn. unfold container_delete, Py.try_except, Py.bind. cbn.
  unfold s3_delete_bucket, call. cbn.
  destruct (reachable w); [|reflexivity].
  destruct (authorized w); [|reflexivity].
  cbn. now rewrite Hn.
Qed.
Lemma container_delete_non_empty loc sel n force w bk :
  buckets w !! n = Some bk -> objects bk <> [] ->
  container_delete (new_client loc sel) n force w
  = (Returns false, record_request (DeleteBucket n) w).
Proof.
  intros Hn Hne. unfold container_delete, Py.try_except, Py.bind. cbn.
  unfold s3_delete_bucket, call. cbn.
  destruct (reachable w); [|reflexivity].
  destruct (authorized w); [|reflexivity].
  cbn. rewrite Hn.
  destruct (negb (String.eqb (owner bk) (account w))); [reflexivity|].
  now destruct (objects bk).
Qed.
(** *** Listing objects *)

Lemma prefix_empty (s : string) : String.prefix EmptyString s = true.
Proof. now destruct s. Qed.

Lemma default_nonempty {A} (l : list A) : default [] (nonempty l) = l.
Proof. now destruct l. Qed.

(** Without prefix and delimiter a bucket enumerates its objects. *)
Lemma enumerate_plain b bk :
  enumerate (list_request b None None) bk
  = map (fun ko => Item ko.1 ko.2) (objects bk).
Proof.
  unfold enumerate. cbn. generalize (@nil string).
  induction (objects bk) as [|ko l IH]; intros seen; [reflexivity|].
  cbn. unfold classify at 1. rewrite prefix_empty. cbn. now rewrite IH.
Qed.

Lemma contents_of_items (l : list (string * stored_object)) :
  omap content_of (map (fun ko => Item ko.1 ko.2) l)
  = map (fun ko => mkContentEntry ko.1
                     (Z.of_nat (String.length (body ko.2)))
                     (quoted (etag ko.2))) l.
Proof. induction l as [|ko l IH]; [reflexivity|]. cbn. now rewrite IH. Qed.

Lemma groups_of_items (l : list (string * stored_object)) :
  omap group_of (map (fun ko => Item ko.1 ko.2) l) = [].
Proof. induction l as [|ko l IH]; [reflexivity|]. cbn. now rewrite IH. Qed.

(** The plain listing of an owned bucket is its first page. *)
Lemma object_list_plain loc sel b w bk :
  reachable w = true -> authorized w = true ->
  buckets w !! b = Some bk -> owner bk = account w ->
  object_list (new_client loc sel) false None None (Some b) w
  = (Returns (map (fun ko => EObject (plain_info ko))
                (take (max_keys w) (objects bk))),
     record_request (ListObjectsV2 (list_request b None None)) w).
Proof.
  intros Hr Ha Hb Ho.
  rewrite (object_list_unfold _ _ _ _ _ b) by reflexivity.
  unfold Py.bind. cbn. unfold s3_list_objects_v2, call. cbn.
  rewrite Hr, Ha. cbn. rewrite Hb, Ho, String.eqb_refl. cbn.
  rewrite enumerate_plain, drop_0, firstn_map.
  rewrite contents_of_items, groups_of_items, default_nonempty. cbn.
  rewrite app_nil_r, map_map. reflexivity.
Qed.

Lemma keys_of_plain (l : list (string * stored_object)) :
  omap entry_key (map (fun ko => EObject (plain_info ko)) l) = map fst l.
Proof. induction l as [|ko l IH]; [reflexivity|]. cbn. now rewrite IH. Qed.
(** *** Enrichment *)

Lemma with_log_same w : with_log (log w) w = w.
Proof. now destruct w. Qed.

(** A listing that the provider answers has status 200 and changes nothing
    but the log. *)
Lemma s3_list_objects_v2_returns q w res w1 :
  s3_list_objects_v2 q w = (Returns res, w1) ->
  status_is_200 (lo_meta res) = true
  /\ w1 = with_log (ListObjectsV2 q :: log w) w.
Proof.
  unfold s3_list_objects_v2, call. cbn.
  destruct (reachable w); [|discriminate].
  destruct (authorized w); [|discriminate]. cbn.
  destruct (buckets w !! lq_Bucket q) as [bk|]; [|discriminate].
  destruct (negb (String.eqb (owner bk) (account w))); [discriminate|].
  intros E. inversion E; subst. now split.
Qed.

(** [object_info] asks the provider about the key in the selected
    container [sel], whatever was listed before. *)
Lemma object_info_selected loc sel k w :
  snd (object_info (new_client loc (Some sel)) k w)
  = with_log (HeadObject sel k :: log w) w
  /\ forall r, fst (object_info (new_client loc (Some sel)) k w) = Returns r ->
       exists so, stored w sel k = Some so /\ r = Some (stored_info k so).
Proof.
  unfold object_info, self_container_name, Py.bind, Py.ret, stored. cbn.
  unfold s3_head_object, call. cbn.
  destruct (reachable w); [|split; [reflexivity | discriminate]].
  destruct (authorized w); [|split; [reflexivity | discriminate]]. cbn.
  destruct (buckets w !! sel) as [bk|]; [|split; [reflexivity | discriminate]].
  destruct (negb (String.eqb (owner bk) (account w)));
    [split; [reflexivity | discriminate]|].
  destruct (find_key k (objects bk)) as [so|];
    [|split; [reflexivity | discriminate]].
  cbn. split; [reflexivity|]. intros r E. injection E as <-. eauto.
Qed.

(** The enrichment of the listed keys [cs]: one request per key to the
    selected container, in order, up to the first that fails. *)
Lemma enrich_on_selected loc sel (cs : list ContentEntry) w :
  let f := fun c : ContentEntry =>
             object_info (new_client loc (Some sel)) (Key c) in
  exists n,
    snd (Py.map_m f cs w)
    = with_log (rev (map (HeadObject sel) (take n (map Key cs))) ++ log w) w
    /\ forall rs, fst (Py.map_m f cs w) = Returns rs ->
         n = length cs
         /\ Forall2 (fun c r => exists so, stored w sel (Key c) = Some so
                                           /\ r = Some (stored_info (Key c) so))
              cs rs.
Proof.
  cbv zeta. revert w. induction cs as [|c cs IH]; intros w.
  - exists 0%nat. cbn. rewrite with_log_same. split; [reflexivity|].
    intros rs E. injection E as <-. split; [reflexivity | constructor].
  - cbn [Py.map_m]. unfold Py.bind.
    destruct (object_info_selected loc sel (Key c) w) as [Hw Hr].
    destruct (object_info (new_client loc (Some sel)) (Key c) w)
      as [[r|e] w1] eqn:E; cbn [fst snd] in Hw, Hr; subst w1.
    + destruct (IH (with_log (HeadObject sel (Key c) :: log w) w))
        as (n & Hlog & Hrs).
      exists (S n). unfold Py.ret.
      destruct (Py.map_m _ cs _) as [[rs'|e] w2]; cbn [fst snd] in *.
      * split.
        -- rewrite Hlog. cbn. now rewrite <- app_assoc.
        -- intros rs Ers. injection Ers as <-.
           destruct (Hrs _ eq_refl) as [-> HF]. split; [reflexivity|].
           constructor; [now apply Hr | exact HF].
      * split; [|discriminate]. rewrite Hlog. cbn. now rewrite <- app_assoc.
    + exists 1%nat. split; [reflexivity | discriminate].
Qed.
End ReferenceFacts.

(** C2: the documentation of [container_delete] promises [True] when the
    container does not exist; the provider answers the deletion of a missing
    bucket with an error, which the method turns into [False]. *)
Theorem container_delete_absent_returns_false :
  S3.buckets Examples.online !! "ghost" = None
  /\ container_delete Examples.s3 "ghost" false Examples.online
     = (Returns false,
        S3.record_request (S3.DeleteBucket "ghost") Examples.online).
Proof. split; reflexivity. Qed.

(** C3, as amended: on a container that holds at least one object,
    [container_delete] without [force] returns [False], and the provider
    keeps the container and every object of it. *)
Theorem container_delete_non_empty_returns_false loc sel n w bk :
  S3.buckets w !! n = Some bk -> S3.objects bk <> [] ->
  fst (container_delete (S3.new_client loc sel) n false w) = Returns false
  /\ S3.buckets (snd (container_delete (S3.new_client loc sel) n false w))
     = S3.buckets w.
Proof.
  intros Hn Hne.
  now rewrite (container_delete_non_empty loc sel n false w bk Hn Hne).
Qed.

Lemma container_delete_non_empty_returns_false_witness :
  fst (container_delete Examples.s3 "photos" false Examples.online)
  = Returns false
  /\ S3.buckets (snd (container_delete Examples.s3 "photos" false
                        Examples.online))
     = S3.buckets Examples.online.
Proof.
  apply (container_delete_non_empty_returns_false "us-west-2" (Some "scans")
           "photos" Examples.online
           (S3.mkBucket "me" "us-west-2" "t0"
              [("a/x", Examples.file "1"); ("a/y", Examples.file "22");
               ("b", Examples.file "333")])).
  - reflexivity.
  - discriminate.
Defined.

(** C3, as stated, fails on a container with three objects: without [force]
    the result is the boolean [False], not an error. *)
Lemma container_delete_no_not_empty_error :
  ~ force_delete_contract Examples.s3 "photos" Examples.online.
Proof. intros [H _]. discriminate H. Qed.

(** With [force] the same call is made, so the container and its objects
    stay. *)
Example container_delete_forced :
  fst (container_delete Examples.s3 "photos" true Examples.online)
  = Returns false
  /\ S3.stored (snd (container_delete Examples.s3 "photos" true
                       Examples.online)) "photos" "b"
     = Some (Examples.file "333").
Proof. split; reflexivity. Qed.

(** ** Listing containers *)

Lemma container_list_ignores_prefix {W} (self : S3Client W) p :
  container_list self p = container_list self None.
Proof. reflexivity. Qed.

(** C6: asked for the containers whose names start with [ph],
    [container_list] returns every container of the caller; [scans] is among
    them. *)
Theorem container_list_returns_unfiltered :
  fst (container_list Examples.s3 (Some "ph") Examples.online)
  = Returns [mkContainerInfo "scans" None None;
             mkContainerInfo "photos" None None]
  /\ starts_with (Some "ph") (mkContainerInfo "scans" None None) = false.
Proof. split; reflexivity. Qed.

(** ** Well-formed metadata *)

Lemma all_chars_impl (f g : ascii -> bool) s :
  (forall c, f c = true -> g c = true) ->
  S3.all_chars f s = true -> S3.all_chars g s = true.
Proof.
  intros Hfg. induction s as [|c s IH]; [reflexivity|]. cbn.
  intros [Hc Hs]%andb_true_iff. now rewrite (Hfg c Hc), IH.
Qed.

Lemma in_range_spec lo hi c :
  S3.in_range lo hi c = true
  <-> (lo <= nat_of_ascii c)%nat /\ (nat_of_ascii c <= hi)%nat.
Proof.
  unfold S3.in_range. now rewrite andb_true_iff, !Nat.leb_le.
Qed.

Lemma key_char_ascii c : key_char c = true -> S3.in_range 0 127 c = true.
Proof.
  unfold key_char. rewrite !orb_true_iff, !in_range_spec. lia.
Qed.

Lemma value_char_ascii c : value_char c = true -> S3.in_range 0 127 c = true.
Proof. unfold value_char. rewrite !in_range_spec. lia. Qed.

Lemma key_char_lower c : key_char c = true -> S3.lower_char c = c.
Proof.
  unfold S3.lower_char. destruct (S3.in_range 65 90 c) eqn:E; [|reflexivity].
  unfold key_char. rewrite !orb_true_iff, !in_range_spec.
  apply in_range_spec in E. lia.
Qed.

Lemma lower_key_chars s : S3.all_chars key_char s = true -> S3.lower s = s.
Proof.
  induction s as [|c s IH]; [reflexivity|]. cbn.
  intros [Hc Hs]%andb_true_iff. now rewrite (key_char_lower c Hc), IH.
Qed.

Lemma valid_entries m :
  valid_metadata m = true ->
  forall kv, In kv (map_to_list m) ->
    S3.all_chars key_char kv.1 = true /\ S3.all_chars value_char kv.2 = true.
Proof.
  unfold valid_metadata. intros [H _]%andb_true_iff kv Hin.
  rewrite forallb_forall in H. specialize (H kv Hin). unfold valid_entry in H.
  apply andb_true_iff in H as [H Hv]. apply andb_true_iff in H as [H _].
  apply andb_true_iff in H as [_ Hk]. now split.
Qed.

(** Well-formed metadata passes the check of the SDK. *)
Lemma valid_metadata_ascii m :
  valid_metadata m = true -> S3.ascii_metadata m = true.
Proof.
  intros H. unfold S3.ascii_metadata. apply forallb_forall. intros kv Hin.
  destruct (valid_entries m H kv Hin) as [Hk Hv].
  rewrite (all_chars_impl _ _ _ key_char_ascii Hk).
  now rewrite (all_chars_impl _ _ _ value_char_ascii Hv).
Qed.

(** Well-formed metadata is stored as it was sent. *)
Lemma valid_metadata_kept m : valid_metadata m = true -> S3.kept_metadata m = m.
Proof.
  intros H. unfold S3.kept_metadata.
  assert (E : forall l : list (string * string),
             (forall kv, In kv l -> S3.all_chars key_char kv.1 = true) ->
             map (fun kv => (S3.lower kv.1, kv.2)) l = l).
  { induction l as [|[k v] l IH]; [reflexivity|]. intros Hl. cbn.
    rewrite (lower_key_chars k (Hl (k, v) (or_introl eq_refl))).
    now rewrite IH by (intros kv Hkv; apply Hl; now right). }
  rewrite E by (intros kv Hin; apply (valid_entries m H kv Hin)).
  apply list_to_map_to_list.
Qed.

(** ** Replacing metadata *)

(** C5: on an object that exists in the selected container,
    [object_replace_metadata] with well-formed metadata returns [True], after
    which the object carries exactly the given metadata and its former body,
    and the other objects of the container are as before; when no object is
    stored under the key the call raises and the provider's buckets are
    unchanged. *)
Theorem object_replace_metadata_replaces loc b k m w :
  S3.reachable w = true -> S3.authorized w = true -> owns w b = true ->
  valid_metadata m = true ->
  match S3.stored w b k with
  | Some o =>
      exists w',
        object_replace_metadata (S3.new_client loc (Some b)) k m w
        = (Returns true, w')
        /\ (exists o', S3.stored w' b k = Some o'
                       /\ S3.meta o' = m /\ S3.body o' = S3.body o)
        /\ (forall k', k' <> k -> S3.stored w' b k' = S3.stored w b k')
  | None =>
      exists e w',
        object_replace_metadata (S3.new_client loc (Some b)) k m w
        = (Raises e, w')
        /\ S3.buckets w' = S3.buckets w
  end.
Proof.
  intros Hr Ha Ho Hm. unfold owns in Ho. unfold S3.stored.
  destruct (S3.buckets w !! b) as [bk|] eqn:Hb; [|discriminate].
  unfold object_replace_metadata, self_container_name, Py.bind, Py.ret.
  cbn [container_name client S3.new_client S3.api copy_object].
  unfold S3.s3_copy_object, S3.call.
  cbn [cq_Metadata cq_CopySource cq_Bucket cq_Key cq_MetadataDirective fst snd].
  rewrite (valid_metadata_ascii m Hm), (valid_metadata_kept m Hm).
  cbn. rewrite Hr, Ha. cbn.
  rewrite Hb, Ho. cbn.
  destruct (S3.find_key k (S3.objects bk)) as [o|] eqn:Hk.
  - cbn. eexists. split; [reflexivity|]. cbn. split.
    + rewrite lookup_insert_eq. cbn. rewrite find_key_put_eq. eauto.
    + intros k' Hne. rewrite lookup_insert_eq. cbn.
      now rewrite find_key_put_ne.
  - cbn. eauto.
Qed.

Lemma object_replace_metadata_replaces_witness :
  exists w',
    object_replace_metadata Examples.s3 "b" {["kind" := "invoice"]}
      Examples.online = (Returns true, w')
    /\ (exists o', S3.stored w' "scans" "b" = Some o'
                   /\ S3.meta o' = {["kind" := "invoice"]}
                   /\ S3.body o' = S3.body Examples.scan)
    /\ (forall k', k' <> "b" ->
                   S3.stored w' "scans" k' = S3.stored Examples.online "scans" k').
Proof.
  exact (object_replace_metadata_replaces "us-west-2" "scans" "b"
           {["kind" := "invoice"]} Examples.online eq_refl eq_refl eq_refl
           eq_refl).
Defined.

(** On a key that the selected container does not hold, the provider's
    error reaches the caller. *)
Example object_replace_metadata_missing :
  fst (object_replace_metadata Examples.s3 "zz" ∅ Examples.online)
  = Raises (ClientError "NoSuchKey").
Proof. reflexivity. Qed.

(** ** Listing objects over pages *)

(** C4, as amended: [object_list] sends one listing request and returns what
    the provider puts on the first page: the first [max_keys] objects of the
    container in listing order, so [min N max_keys] entries for a container
    of [N] objects, without duplicates when the keys are distinct; the
    listing is complete when the objects fit on one page. *)
Theorem object_list_returns_first_page loc sel b w bk :
  S3.reachable w = true -> S3.authorized w = true ->
  S3.buckets w !! b = Some bk -> S3.owner bk = S3.account w ->
  exists l,
    fst (object_list (S3.new_client loc sel) false None None (Some b) w)
    = Returns l
    /\ S3.log (snd (object_list (S3.new_client loc sel) false None None
                      (Some b) w))
       = S3.ListObjectsV2 (list_request b None None) :: S3.log w
    /\ omap entry_key l = take (S3.max_keys w) (map fst (S3.objects bk))
    /\ length l = min (S3.max_keys w) (length (S3.objects bk))
    /\ (NoDup (map fst (S3.objects bk)) -> NoDup (omap entry_key l))
    /\ ((length (S3.objects bk) <= S3.max_keys w)%nat -> complete_listing w b l).
Proof.
  intros Hr Ha Hb Ho. eexists.
  rewrite (object_list_plain loc sel b w bk Hr Ha Hb Ho). cbn [fst snd].
  split; [reflexivity|]. split; [reflexivity|].
  rewrite keys_of_plain, length_map, length_take, firstn_map.
  split; [reflexivity|]. split; [reflexivity|]. split.
  - intros Hnd. rewrite <- firstn_map.
    exact (sublist_NoDup _ _ Hnd (sublist_take _ _)).
  - intros Hle. exists bk. split; [assumption|].
    rewrite take_ge by exact Hle.
    split; [apply length_map | now rewrite keys_of_plain].
Qed.

Lemma object_list_returns_first_page_witness :
  exists l,
    fst (object_list Examples.s3 false None None (Some "photos")
           Examples.online) = Returns l
    /\ length l = 2%nat.
Proof.
  destruct (object_list_returns_first_page "us-west-2" (Some "scans") "photos"
              Examples.online
              (S3.mkBucket "me" "us-west-2" "t0"
                 [("a/x", Examples.file "1"); ("a/y", Examples.file "22");
                  ("b", Examples.file "333")])
              eq_refl eq_refl eq_refl eq_refl)
    as (l & Hl & _ & _ & Hlen & _).
  exists l. split; [exact Hl | exact Hlen].
Defined.

(** C4, as stated, fails: of the three objects of [photos], a provider with
    pages of two entries lists two. *)
Lemma object_list_stops_after_first_page :
  ~ exists l,
      fst (object_list Examples.s3 false None None (Some "photos")
             Examples.online) = Returns l
      /\ complete_listing Examples.online "photos" l.
Proof.
  intros (l & Hl & bk & Hb & Hlen & _).
  vm_compute in Hl. injection Hl as <-.
  vm_compute in Hb. injection Hb as <-.
  discriminate Hlen.
Qed.

(** ** Enrichment with metadata *)

(** C8: when [object_list] lists the container [listed] with
    [fetch_metadata=True] on a client whose selected container is [sel], the
    requests for metadata all go to [sel], one per listed key and in listing
    order, and every object of the result describes what [sel] stores under
    that key. *)
Theorem object_list_enriches_from_selected loc sel listed p d w res w1 :
  S3.s3_list_objects_v2 (list_request listed p d) w = (Returns res, w1) ->
  let run := object_list (S3.new_client loc (Some sel)) true p d (Some listed) w in
  let keys := map Key (default [] (Contents res)) in
  (exists n,
     S3.log (snd run)
     = (rev (map (S3.HeadObject sel) (take n keys))
        ++ S3.ListObjectsV2 (list_request listed p d) :: S3.log w)%list)
  /\ forall l, fst run = Returns l ->
       S3.log (snd run)
       = (rev (map (S3.HeadObject sel) keys)
          ++ S3.ListObjectsV2 (list_request listed p d) :: S3.log w)%list
       /\ exists front,
            l = (front ++ map listed_subdir (default [] (CommonPrefixes res)))%list
            /\ Forall2 (fun k e => exists so, S3.stored w sel k = Some so
                                              /\ e = EObject (stored_info k so))
                 keys front.
Proof.
  intros Hlist run keys. subst run keys.
  destruct (s3_list_objects_v2_returns _ _ _ _ Hlist) as [Hs ->].
  rewrite (object_list_unfold _ _ _ _ _ listed) by reflexivity.
  rewrite (bind_returns _ _ _ _ _ Hlist). rewrite Hs. cbv zeta.
  destruct (enrich_on_selected loc sel (default [] (Contents res))
              (with_log (S3.ListObjectsV2 (list_request listed p d) :: S3.log w) w))
    as (n & Hlog & Hrs).
  cbv zeta in Hlog, Hrs. rewrite bind_ret_snd, Hlog. cbn [S3.log with_log].
  split; [now exists n|].
  intros l Hl. apply bind_ret_fst in Hl as (rs & Ers & ->).
  destruct (Hrs _ Ers) as [-> HF]. split.
  - now rewrite <- (length_map Key), firstn_all.
  - exists (map cell_of rs). split; [reflexivity|].
    clear -HF. induction HF as [|c r cs rs (so & Hso & ->) _ IH]; cbn.
    + constructor.
    + constructor; [|exact IH]. exists so. split; [exact Hso | reflexivity].
Qed.

Lemma object_list_enriches_from_selected_witness :
  S3.log (snd (object_list Examples.s3 true None (Some "/") (Some "photos")
                 Examples.online))
  = [S3.HeadObject "scans" "b";
     S3.ListObjectsV2 (list_request "photos" None (Some "/"))].
Proof.
  destruct (object_list_enriches_from_selected "us-west-2" "scans" "photos"
              None (Some "/") Examples.online _ _ eq_refl) as [_ H].
  destruct (H _ eq_refl) as [Hlog _]. exact Hlog.
Defined.

(** [object_info] answers with the name it was asked about. *)
Lemma object_info_name {W} (self : S3Client W) k w o w' :
  object_info self k w = (Returns (Some o), w') -> name o = k.
Proof.
  unfold object_info. intros E.
  apply bind_inv in E as (bucket & w1 & _ & E).
  apply bind_inv in E as (res & w2 & _ & E).
  destruct (status_is_200 (ho_meta res)); [|discriminate].
  destruct (ETag res); [|discriminate].
  now injection E as <- <-.
Qed.

(** X6: enrichment keeps the length and the order of the listing: the cell
    at the place of a listed key holds [None] or an [ObjectInfo] of that
    name, and the subdirectories follow. *)
Lemma object_list_enrich_keeps_order {W} (self : S3Client W) p d cn bucket
    w l w' :
  listed_container self cn = Some bucket ->
  object_list self true p d cn w = (Returns l, w') ->
  exists res w1,
    list_objects_v2 (client self) (list_request bucket p d) w = (Returns res, w1)
    /\ (status_is_200 (lo_meta res) = true ->
        length l = (length (default [] (Contents res))
                    + length (default [] (CommonPrefixes res)))%nat
        /\ forall i c, default [] (Contents res) !! i = Some c ->
             l !! i = Some ENone
             \/ exists o, l !! i = Some (EObject o) /\ name o = Key c).
Proof.
  intros Hb E. rewrite (object_list_unfold _ _ _ _ _ _ _ Hb) in E.
  apply bind_inv in E as (res & w1 & Eres & E).
  exists res, w1. split; [exact Eres|]. intros Hs. rewrite Hs in E.
  cbv zeta in E. apply bind_inv in E as (rs & w2 & Ers & E).
  injection E as <- <-.
  destruct (map_m_inv _ _ _ _ _ Ers) as [Hlen Hnth]. split.
  - now rewrite length_app, !length_map, Hlen.
  - intros i c Hc.
    assert (Hi : (i < length rs)%nat).
    { rewrite Hlen. now apply lookup_lt_Some in Hc. }
    destruct (lookup_lt_is_Some_2 _ _ Hi) as [r Hr].
    rewrite lookup_app_l by now rewrite length_map.
    change (map cell_of rs) with (cell_of <$> rs).
    rewrite list_lookup_fmap, Hr. cbn.
    destruct r as [o|]; [right | now left].
    exists o. split; [reflexivity|].
    destruct (Hnth _ _ _ Hc Hr) as (wa & wb & Eo).
    exact (object_info_name _ _ _ _ _ Eo).
Qed.

(** C7: the cell of a listed object is filled with what the selected
    container stores under the same key.  Listing [photos] on a client that
    has selected [scans] returns, for the object [b] of [photos], the size,
    type, fingerprint and metadata of the object [b] of [scans]. *)
Theorem object_list_enriches_other_object :
  fst (object_list Examples.s3 true None (Some "/") (Some "photos")
         Examples.online)
  = Returns [EObject (stored_info "b" Examples.scan);
             ESubdir (mkSubdirInfo "a/")]
  /\ S3.stored Examples.online "photos" "b" = Some (Examples.file "333")
  /\ bytes (stored_info "b" Examples.scan) = Some 5
  /\ bytes (stored_info "b" (Examples.file "333")) = Some 3.
Proof. repeat split; reflexivity. Qed.

(** When the selected container has no object under a listed key, the call
    raises and returns no list at all. *)
Example object_list_enrich_missing_key :
  fst (object_list Examples.s3 true None None (Some "photos") Examples.online)
  = Raises (ClientError "404")
  /\ exists l, fst (object_list Examples.s3 false None None (Some "photos")
                      Examples.online) = Returns l.
Proof. split; [reflexivity | eexists; reflexivity]. Qed.


(** * Further properties of the client *)

(** ** Removing the quotes of a fingerprint *)

Lemma remove_dquotes_clean s : has_dquote (remove_dquotes s) = false.
Proof.
  induction s as [|c s IH]; [reflexivity|]. cbn.
  destruct (Ascii.eqb c dquote) eqn:E; [exact IH|]. cbn. now rewrite E.
Qed.

Lemma remove_dquotes_id s : has_dquote s = false -> remove_dquotes s = s.
Proof.
  induction s as [|c s IH]; [reflexivity|]. cbn. intros H.
  apply orb_false_iff in H as [-> H]. now rewrite IH.
Qed.

Lemma remove_dquotes_app s t :
  remove_dquotes (s ++ t) = (remove_dquotes s ++ remove_dquotes t)%string.
Proof.
  induction s as [|c s IH]; [reflexivity|].
  change (String c s +:+ t) with (String c (s +:+ t)). cbn [remove_dquotes].
  destruct (Ascii.eqb c dquote); [exact IH | now rewrite IH].
Qed.

(** X1: the fingerprint that the provider sends between double quotes comes
    back without them: removing the quotes of a quoted string that itself
    holds none gives that string, and whatever the input the result holds no
    double quote. *)
Theorem remove_dquotes_quoted s :
  has_dquote s = false ->
  remove_dquotes (S3.quoted s) = s
  /\ forall t, has_dquote (remove_dquotes t) = false.
Proof.
  intros H. split; [|apply remove_dquotes_clean].
  unfold S3.quoted.
  change (remove_dquotes (String dquote (s +:+ String dquote EmptyString)))
    with (remove_dquotes (s +:+ String dquote EmptyString)).
  rewrite remove_dquotes_app, (remove_dquotes_id s H).
  change (remove_dquotes (String dquote EmptyString)) with EmptyString.
  clear. induction s as [|c s IH]; [reflexivity|].
  change (String c s +:+ EmptyString) with (String c (s +:+ EmptyString)).
  now rewrite IH.
Qed.

Lemma remove_dquotes_quoted_witness :
  remove_dquotes (S3.quoted "9b2cf5") = "9b2cf5".
Proof. exact (proj1 (remove_dquotes_quoted "9b2cf5" eq_refl)). Defined.

(** ** Information about one object *)

(** X2: an [ObjectInfo] returned by [object_info] comes from a [head_object]
    answer with status 200 about the requested key in the selected
    container: it has the requested name, the length, type and metadata of
    the answer, and the answer's [ETag] without any double quote. *)
Theorem object_info_returns {W} (self : S3Client W) k w o w' :
  object_info self k w = (Returns (Some o), w') ->
  exists bucket res,
    container_name self = Some bucket
    /\ head_object (client self) bucket k w = (Returns res, w')
    /\ status_is_200 (ho_meta res) = true
    /\ name o = k
    /\ bytes o = ContentLength res
    /\ content_type o = ContentType res
    /\ metadata o = Metadata res
    /\ exists e, ETag res = Some e
                 /\ hash o = Some (remove_dquotes e)
                 /\ has_dquote (remove_dquotes e) = false.
Proof.
  unfold object_info, self_container_name. intros E.
  destruct (container_name self) as [bucket|]; [|discriminate].
  apply bind_inv in E as (b & w0 & Eb & E). injection Eb as <- <-.
  apply bind_inv in E as (res & w1 & Eres & E).
  exists bucket, res.
  destruct (status_is_200 (ho_meta res)); [|discriminate].
  destruct (ETag res) as [e|]; [|discriminate].
  injection E as <- <-. cbn.
  repeat (split; [first [reflexivity | assumption]|]).
  exists e. repeat split. apply remove_dquotes_clean.
Qed.

Lemma object_info_returns_witness :
  exists bucket res,
    container_name Examples.s3 = Some bucket
    /\ head_object (client Examples.s3) bucket "b" Examples.online
       = (Returns res,
          S3.record_request (S3.HeadObject "scans" "b") Examples.online)
    /\ status_is_200 (ho_meta res) = true
    /\ name (stored_info "b" Examples.scan) = "b"
    /\ bytes (stored_info "b" Examples.scan) = ContentLength res
    /\ content_type (stored_info "b" Examples.scan) = ContentType res
    /\ metadata (stored_info "b" Examples.scan) = Metadata res
    /\ exists e, ETag res = Some e
                 /\ hash (stored_info "b" Examples.scan)
                    = Some (remove_dquotes e)
                 /\ has_dquote (remove_dquotes e) = false.
Proof.
  exact (object_info_returns Examples.s3 "b" Examples.online
           (stored_info "b" Examples.scan) _ eq_refl).
Defined.

(** X3: when the answer has status 200 and no [ETag], [object_info] raises
    [AttributeError] instead of returning an [ObjectInfo] without hash. *)
Theorem object_info_without_etag {W} (self : S3Client W) bucket k w res w' :
  container_name self = Some bucket ->
  head_object (client self) bucket k w = (Returns res, w') ->
  status_is_200 (ho_meta res) = true ->
  ETag res = None ->
  object_info self k w = (Raises AttributeError, w').
Proof.
  intros Hb Hres Hs He. unfold object_info, self_container_name.
  rewrite Hb. rewrite (bind_returns _ _ w bucket w) by reflexivity.
  rewrite (bind_returns _ _ _ _ _ Hres). now rewrite Hs, He.
Qed.

Lemma object_info_without_etag_witness :
  object_info (mkS3Client (replay_head no_etag) "us-west-2" (Some "scans"))
    "b" tt = (Raises AttributeError, tt).
Proof.
  exact (object_info_without_etag
           (mkS3Client (replay_head no_etag) "us-west-2" (Some "scans"))
           "scans" "b" tt no_etag tt eq_refl eq_refl eq_refl eq_refl).
Defined.


(** ** Enrichment over any provider *)

Lemma map_m_raises_at {W A B} (f : A -> Py.M W B) pre x post w ys w1 e w2 :
  Py.map_m f pre w = (Returns ys, w1) ->
  f x w1 = (Raises e, w2) ->
  Py.map_m f (pre ++ x :: post)%list w = (Raises e, w2).
Proof.
  revert w ys. induction pre as [|a pre IH]; intros w ys Hpre Hx.
  - injection Hpre as <- <-. cbn. now rewrite (bind_raises _ _ _ _ _ Hx).
  - cbn in Hpre |- *.
    apply bind_inv in Hpre as (y & wa & Ea & Hpre).
    apply bind_inv in Hpre as (ys' & wb & Epre & Hpre).
    injection Hpre as <- <-.
    rewrite (bind_returns _ _ _ _ _ Ea).
    now rewrite (bind_raises _ _ _ _ _ (IH _ _ Epre Hx)).
Qed.

(** X5: enrichment stops at the first object whose [object_info] raises:
    [object_list] then raises that exception, returns no part of the
    listing, and leaves the provider in the state of the failed request, the
    later keys never asked about. *)
Theorem object_list_enrich_aborts {W} (self : S3Client W) p d cn bucket
    w res w1 pre c post rs w2 e w3 :
  listed_container self cn = Some bucket ->
  list_objects_v2 (client self) (list_request bucket p d) w = (Returns res, w1) ->
  status_is_200 (lo_meta res) = true ->
  default [] (Contents res) = (pre ++ c :: post)%list ->
  Py.map_m (fun o => object_info self (Key o)) pre w1 = (Returns rs, w2) ->
  object_info self (Key c) w2 = (Raises e, w3) ->
  object_list self true p d cn w = (Raises e, w3).
Proof.
  intros Hb Hres Hs Hc Hpre Hx.
  rewrite (object_list_unfold _ _ _ _ _ _ _ Hb).
  rewrite (bind_returns _ _ _ _ _ Hres). rewrite Hs. cbv zeta. rewrite Hc.
  apply bind_raises.
  exact (map_m_raises_at (fun o => object_info self (Key o)) pre c post
           w1 rs w2 e w3 Hpre Hx).
Qed.

Lemma object_list_enrich_aborts_witness :
  object_list Examples.s3 true None None (Some "photos") Examples.online
  = (Raises (ClientError "404"),
     with_log [S3.HeadObject "scans" "a/x";
               S3.ListObjectsV2 (list_request "photos" None None)]
       Examples.online).
Proof.
  exact (object_list_enrich_aborts Examples.s3 None None (Some "photos")
           "photos" Examples.online _ _ []
           (mkContentEntry "a/x" 1 (S3.quoted "e0"))
           [mkContentEntry "a/y" 2 (S3.quoted "e0")] [] _
           (ClientError "404") _
           eq_refl eq_refl eq_refl eq_refl eq_refl eq_refl).
Defined.

Lemma object_list_enrich_keeps_order_witness :
  exists res w1,
    list_objects_v2 (client Examples.s3) (list_request "photos" None (Some "/"))
      Examples.online = (Returns res, w1)
    /\ (status_is_200 (lo_meta res) = true ->
        length [EObject (stored_info "b" Examples.scan);
                ESubdir (mkSubdirInfo "a/")]
        = (length (default [] (Contents res))
           + length (default [] (CommonPrefixes res)))%nat
        /\ forall i c, default [] (Contents res) !! i = Some c ->
             [EObject (stored_info "b" Examples.scan);
              ESubdir (mkSubdirInfo "a/")] !! i = Some ENone
             \/ exists o,
                  [EObject (stored_info "b" Examples.scan);
                   ESubdir (mkSubdirInfo "a/")] !! i = Some (EObject o)
                  /\ name o = Key c).
Proof.
  exact (object_list_enrich_keeps_order Examples.s3 None (Some "/")
           (Some "photos") "photos" Examples.online _ _ eq_refl eq_refl).
Defined.

(** ** Failures of the SDK *)

(** X7: over any provider, an exception [e] raised by the SDK call is
    answered with [False] by [container_create] and [container_delete],
    while [container_list], [container_info], [object_info],
    [object_replace_metadata] and [object_list] let the same exception
    escape; in each case the provider is left as the failed call left it. *)
Theorem sdk_failures {W} (self : S3Client W) b lb n force p k m fm d cn
    e w w' :
  container_name self = Some b ->
  listed_container self cn = Some lb ->
  (create_bucket (client self) n (location self) w = (Raises e, w') ->
   container_create self n w = (Returns false, w'))
  /\ (delete_bucket (client self) n w = (Raises e, w') ->
      container_delete self n force w = (Returns false, w'))
  /\ (list_buckets (client self) w = (Raises e, w') ->
      container_list self p w = (Raises e, w'))
  /\ (head_bucket (client self) n w = (Raises e, w') ->
      container_info self n w = (Raises e, w'))
  /\ (head_object (client self) b k w = (Raises e, w') ->
      object_info self k w = (Raises e, w'))
  /\ (copy_object (client self)
        (mkCopyObjectRequest b k (b, k) m "REPLACE") w = (Raises e, w') ->
      object_replace_metadata self k m w = (Raises e, w'))
  /\ (list_objects_v2 (client self) (list_request lb p d) w = (Raises e, w') ->
      object_list self fm p d cn w = (Raises e, w')).
Proof.
  intros Hsel Hcn. repeat split; intros H.
  - unfold container_create, Py.try_except.
    now rewrite (bind_raises _ _ _ _ _ H).
  - unfold container_delete, Py.try_except.
    now rewrite (bind_raises _ _ _ _ _ H).
  - unfold container_list. exact (bind_raises _ _ _ _ _ H).
  - unfold container_info. exact (bind_raises _ _ _ _ _ H).
  - unfold object_info, self_container_name. rewrite Hsel.
    rewrite (bind_returns _ _ w b w) by reflexivity.
    exact (bind_raises _ _ _ _ _ H).
  - unfold object_replace_metadata, self_container_name. rewrite Hsel.
    rewrite (bind_returns _ _ w b w) by reflexivity.
    exact (bind_raises _ _ _ _ _ H).
  - rewrite (object_list_unfold _ _ _ _ _ _ _ Hcn).
    exact (bind_raises _ _ _ _ _ H).
Qed.

Lemma sdk_failures_witness :
  container_create Examples.s3 "archive" Examples.offline
  = (Returns false,
     S3.record_request (S3.CreateBucket "archive" "us-west-2") Examples.offline)
  /\ container_list Examples.s3 None Examples.offline
     = (Raises EndpointConnectionError,
        S3.record_request S3.ListBuckets Examples.offline).
Proof.
  split.
  - exact (proj1 (sdk_failures Examples.s3 "scans" "photos" "archive" false
                    None "b" ∅ false None (Some "photos")
                    EndpointConnectionError Examples.offline
                    _ eq_refl eq_refl) eq_refl).
  - exact (proj1 (proj2 (proj2 (sdk_failures Examples.s3 "scans" "photos"
                                  "archive" false None "b" ∅ false None
                                  (Some "photos") EndpointConnectionError
                                  Examples.offline _ eq_refl eq_refl)))
             eq_refl).
Defined.

(** ** The life of a container on the reference provider *)

Lemma create_run loc sel n w :
  container_create (S3.new_client loc sel) n w
  = (Returns (creatable w n),
     S3.set_buckets
       (if creatable w n then <[n := fresh_bucket w loc]> (S3.buckets w)
        else S3.buckets w)
       (S3.record_request (S3.CreateBucket n loc) w)).
Proof.
  unfold container_create, Py.try_except, Py.bind, Py.ret, creatable, serving.
  cbn. unfold S3.s3_create_bucket, S3.call. destruct w as [acc r a mk bs lg].
  cbn. destruct r; [|reflexivity]. destruct a; [|reflexivity]. cbn.
  destruct (S3.valid_bucket_name n); [|reflexivity]. cbn.
  destruct (bs !! n) as [bk|]; [|reflexivity].
  now destruct (String.eqb (S3.owner bk) acc).
Qed.

Lemma delete_run loc sel n force w :
  container_delete (S3.new_client loc sel) n force w
  = (Returns (deletable w n),
     S3.set_buckets
       (if deletable w n then delete n (S3.buckets w) else S3.buckets w)
       (S3.record_request (S3.DeleteBucket n) w)).
Proof.
  unfold container_delete, Py.try_except, Py.bind, Py.ret, deletable, serving,
    owns_empty.
  cbn. unfold S3.s3_delete_bucket, S3.call. destruct w as [acc r a mk bs lg].
  cbn. destruct r; [|reflexivity]. destruct a; [|reflexivity]. cbn.
  destruct (bs !! n) as [bk|]; [|reflexivity].
  destruct (String.eqb (S3.owner bk) acc); [|reflexivity]. cbn.
  now destruct (S3.objects bk).
Qed.

(** X8: [container_create] never raises and changes the buckets only when
    it returns [True]: then the provider served the caller, no bucket of any
    account had the name, and exactly one empty bucket of that name, owned
    by the caller, in the location of the client, was added; when it returns
    [False] every bucket is as before. *)
Theorem container_create_outcome loc sel n w :
  (fst (container_create (S3.new_client loc sel) n w) = Returns true
   /\ serving w = true
   /\ S3.buckets w !! n = None
   /\ S3.buckets (snd (container_create (S3.new_client loc sel) n w))
      = <[n := S3.mkBucket (S3.account w) loc "now" []]> (S3.buckets w))
  \/ (fst (container_create (S3.new_client loc sel) n w) = Returns false
      /\ S3.buckets (snd (container_create (S3.new_client loc sel) n w))
         = S3.buckets w).
Proof.
  unfold container_create, Py.try_except, Py.bind, Py.ret, serving.
  cbn. unfold S3.s3_create_bucket, S3.call. cbn.
  destruct (S3.reachable w); [|now right].
  destruct (S3.authorized w); [|now right]. cbn.
  destruct (S3.valid_bucket_name n); [|now right]. cbn.
  destruct (S3.buckets w !! n) as [bk|]; [|now left].
  destruct (String.eqb (S3.owner bk) (S3.account w)); now right.
Qed.

(** X9: [container_delete] returns [True] exactly when the provider serves
    the caller and the bucket exists, is the caller's and is empty; it then
    removes that bucket, and otherwise changes no bucket, whatever
    [force]. *)
Theorem container_delete_outcome loc sel n force w :
  fst (container_delete (S3.new_client loc sel) n force w)
  = Returns (deletable w n)
  /\ S3.buckets (snd (container_delete (S3.new_client loc sel) n force w))
     = (if deletable w n then delete n (S3.buckets w) else S3.buckets w).
Proof.
  unfold container_delete, Py.try_except, Py.bind, Py.ret, deletable, serving,
    owns_empty.
  cbn. unfold S3.s3_delete_bucket, S3.call. cbn.
  destruct (S3.reachable w); [|now split].
  destruct (S3.authorized w); [|now split]. cbn.
  destruct (S3.buckets w !! n) as [bk|]; [|now split].
  destruct (String.eqb (S3.owner bk) (S3.account w)); [|now split]. cbn.
  now destruct (S3.objects bk).
Qed.

(** X10: a container whose [container_create] returned [True] can be
    deleted at once, and the provider then holds the buckets it held before
    the creation. *)
Theorem create_then_delete loc sel n force w :
  let self := S3.new_client loc sel in
  fst (container_create self n w) = Returns true ->
  fst (container_delete self n force (snd (container_create self n w)))
  = Returns true
  /\ S3.buckets (snd (container_delete self n force
                        (snd (container_create self n w))))
     = S3.buckets w.
Proof.
  intros self. subst self. rewrite create_run. cbn [fst snd].
  intros Hc. injection Hc as Hc. rewrite delete_run, Hc. cbn [fst snd].
  assert (Hd : deletable
                 (S3.set_buckets (<[n:=fresh_bucket w loc]> (S3.buckets w))
                    (S3.record_request (S3.CreateBucket n loc) w)) n = true).
  { unfold deletable, serving, owns_empty. cbn.
    unfold creatable, serving in Hc.
    apply andb_true_iff in Hc as [Hc _]. apply andb_true_iff in Hc as [-> _].
    rewrite lookup_insert_eq. cbn. now rewrite String.eqb_refl. }
  rewrite Hd. cbn. split; [reflexivity|].
  rewrite delete_insert_eq. apply delete_id.
  unfold creatable in Hc. apply andb_true_iff in Hc as [_ Hc].
  now destruct (S3.buckets w !! n).
Qed.

Lemma create_then_delete_witness :
  fst (container_delete Examples.s3 "archive" false
         (snd (container_create Examples.s3 "archive" Examples.online)))
  = Returns true
  /\ S3.buckets (snd (container_delete Examples.s3 "archive" false
                        (snd (container_create Examples.s3 "archive"
                                Examples.online))))
     = S3.buckets Examples.online.
Proof.
  exact (create_then_delete "us-west-2" (Some "scans") "archive" false
           Examples.online eq_refl).
Defined.

(** X11: neither operation can be repeated with the same answer: after a
    successful [container_create] a second one returns [False], and after a
    successful [container_delete] a second one returns [False]; the repeated
    call changes no bucket. *)
Theorem repeated_create_and_delete loc sel n force w :
  let self := S3.new_client loc sel in
  (creatable w n = true ->
   fst (container_create self n (snd (container_create self n w)))
   = Returns false
   /\ S3.buckets (snd (container_create self n (snd (container_create self n w))))
      = S3.buckets (snd (container_create self n w)))
  /\ (deletable w n = true ->
      fst (container_delete self n force (snd (container_delete self n force w)))
      = Returns false
      /\ S3.buckets (snd (container_delete self n force
                            (snd (container_delete self n force w))))
         = S3.buckets (snd (container_delete self n force w))).
Proof.
  intros self. subst self. split; intros H.
  - rewrite !create_run, H. cbn [fst snd].
    assert (Hc : creatable
                   (S3.set_buckets (<[n:=fresh_bucket w loc]> (S3.buckets w))
                      (S3.record_request (S3.CreateBucket n loc) w)) n = false).
    { unfold creatable. cbn. rewrite lookup_insert_eq. apply andb_false_r. }
    now rewrite Hc.
  - rewrite !delete_run, H. cbn [fst snd].
    assert (Hd : deletable
                   (S3.set_buckets (delete n (S3.buckets w))
                      (S3.record_request (S3.DeleteBucket n) w)) n = false).
    { unfold deletable, owns_empty. cbn. rewrite lookup_delete_eq.
      apply andb_false_r. }
    now rewrite Hd.
Qed.

Lemma repeated_create_and_delete_witness :
  fst (container_create Examples.s3 "archive"
         (snd (container_create Examples.s3 "archive" Examples.online)))
  = Returns false
  /\ S3.buckets (snd (container_create Examples.s3 "archive"
                        (snd (container_create Examples.s3 "archive"
                                Examples.online))))
     = S3.buckets (snd (container_create Examples.s3 "archive" Examples.online)).
Proof.
  exact (proj1 (repeated_create_and_delete "us-west-2" (Some "scans")
                  "archive" false Examples.online) eq_refl).
Defined.

(** X12: for a bucket name of lower-case letters and digits, [container_info]
    returns the [ContainerInfo] of a container of the caller, with neither
    creation date nor region; for a name that no bucket has it raises the
    provider's error 404 and does not return [None]; for a bucket of another
    account it raises 403. *)
Theorem container_info_outcome loc sel n w :
  plain_bucket_name n = true ->
  serving w = true ->
  container_info (S3.new_client loc sel) n w
  = (match S3.buckets w !! n with
     | Some bk => if String.eqb (S3.owner bk) (S3.account w)
                  then Returns (Some (mkContainerInfo n None None))
                  else Raises (ClientError "403")
     | None => Raises (ClientError "404")
     end,
     S3.record_request (S3.HeadBucket n) w).
Proof.
  unfold serving. intros _ [Hr Ha]%andb_true_iff.
  unfold container_info, Py.bind, Py.ret. cbn.
  unfold S3.s3_head_bucket, S3.call. cbn. rewrite Hr, Ha. cbn.
  destruct (S3.buckets w !! n) as [bk|]; [|reflexivity].
  now destruct (String.eqb (S3.owner bk) (S3.account w)).
Qed.

Lemma container_info_outcome_witness :
  container_info Examples.s3 "ghost" Examples.online
  = (Raises (ClientError "404"),
     S3.record_request (S3.HeadBucket "ghost") Examples.online).
Proof.
  exact (container_info_outcome "us-west-2" (Some "scans") "ghost"
           Examples.online eq_refl eq_refl).
Defined.

(** ** The containers of the caller *)

Lemma NoDup_fst_filter {A B} (P : A * B -> Prop) `{forall x, Decision (P x)}
    (l : list (A * B)) :
  NoDup (l.*1) -> NoDup ((filter P l).*1).
Proof.
  induction l as [|x l IH]; [intros _; constructor|].
  rewrite fmap_cons, NoDup_cons. intros [Hx Hl].
  rewrite filter_cons. destruct (decide (P x)); [|auto].
  rewrite fmap_cons, NoDup_cons. split; [|auto].
  intros Hin. apply Hx.
  apply list_elem_of_fmap in Hin as (y & -> & Hy).
  apply list_elem_of_filter in Hy as [_ Hy].
  apply list_elem_of_fmap. eauto.
Qed.

(** X13: [container_list] returns exactly the containers that the caller
    owns, each once, whatever the prefix; the buckets of other accounts are
    not among them, and no entry carries a creation date or a region,
    although the provider reports the creation dates. *)
Theorem container_list_owned loc sel p w :
  serving w = true ->
  exists l,
    container_list (S3.new_client loc sel) p w
    = (Returns l, S3.record_request S3.ListBuckets w)
    /\ NoDup (map ci_name l)
    /\ (forall n, n ∈ map ci_name l <-> owns w n = true)
    /\ Forall (fun c => ci_creation_date c = None /\ ci_region c = None) l.
Proof.
  unfold serving. intros [Hr Ha]%andb_true_iff.
  unfold container_list, Py.bind, Py.ret. cbn.
  unfold S3.s3_list_buckets, S3.call. cbn. rewrite Hr, Ha. cbn.
  eexists. split; [reflexivity|].
  rewrite !map_map. cbn.
  set (mine := filter _ (map_to_list (S3.buckets w))).
  change (map (fun x : string * S3.bucket => x.1) mine) with (mine.*1).
  split; [|split].
  - apply NoDup_fst_filter, NoDup_fst_map_to_list.
  - intros n. unfold owns. rewrite list_elem_of_fmap. split.
    + intros ([n' bk] & -> & Hin). subst mine.
      apply list_elem_of_filter in Hin as [Ho Hin].
      apply elem_of_map_to_list in Hin. cbn in *. rewrite Hin.
      now apply String.eqb_eq.
    + destruct (S3.buckets w !! n) as [bk|] eqn:Hn; [|discriminate].
      intros Ho%String.eqb_eq. exists (n, bk). split; [reflexivity|].
      subst mine. apply list_elem_of_filter. split; [exact Ho|].
      now apply elem_of_map_to_list.
  - apply Forall_forall. intros c Hc%list_elem_of_In.
    now apply in_map_iff in Hc as (x & <- & _).
Qed.

Lemma container_list_owned_witness :
  exists l,
    container_list Examples.s3 (Some "ph") Examples.online
    = (Returns l, S3.record_request S3.ListBuckets Examples.online)
    /\ NoDup (map ci_name l)
    /\ (forall n, n ∈ map ci_name l <-> owns Examples.online n = true)
    /\ Forall (fun c => ci_creation_date c = None /\ ci_region c = None) l.
Proof.
  exact (container_list_owned "us-west-2" (Some "scans") (Some "ph")
           Examples.online eq_refl).
Defined.

(** ** Operations that only read *)

(** Every request is logged and touches nothing else unless it succeeds in
    writing. *)
Lemma call_keeps {A} r denied (k : Py.M S3.world A) w :
  (forall w0, snd (k w0) = w0) ->
  snd (S3.call r denied k w) = with_log (r :: S3.log w) w.
Proof.
  intros Hk. unfold S3.call. cbn.
  destruct (S3.reachable w); [|reflexivity].
  destruct (S3.authorized w); [|reflexivity]. cbn. now rewrite Hk.
Qed.

Lemma object_info_keeps loc sel k w :
  exists l, snd (object_info (S3.new_client loc sel) k w) = with_log l w.
Proof.
  destruct sel as [b|].
  - exists (S3.HeadObject b k :: S3.log w).
    exact (proj1 (object_info_selected loc b k w)).
  - exists (S3.log w). cbn. now rewrite with_log_same.
Qed.

Lemma map_m_keeps {A B} (f : A -> Py.M S3.world B) xs w :
  (forall x w0, exists l, snd (f x w0) = with_log l w0) ->
  exists l, snd (Py.map_m f xs w) = with_log l w.
Proof.
  intros Hf. revert w. induction xs as [|x xs IH]; intros w.
  - exists (S3.log w). cbn. now rewrite with_log_same.
  - cbn. unfold Py.bind. destruct (Hf x w) as [l1 H1].
    destruct (f x w) as [[y|e] w1]; cbn in H1; subst w1.
    + destruct (IH (with_log l1 w)) as [l2 H2].
      destruct (Py.map_m f xs (with_log l1 w)) as [[ys|e] w2];
        cbn in H2 |- *; subst w2; now exists l2.
    + now exists l1.
Qed.

(** X14: the operations that only read never change a bucket or an object:
    after [container_list], [container_info], [object_info] and
    [object_list], with or without enrichment and whether they return or
    raise, the provider holds the buckets it held before. *)
Theorem reads_keep_the_store loc sel n k fm p d cn w :
  let self := S3.new_client loc sel in
  S3.buckets (snd (container_list self p w)) = S3.buckets w
  /\ S3.buckets (snd (container_info self n w)) = S3.buckets w
  /\ S3.buckets (snd (object_info self k w)) = S3.buckets w
  /\ S3.buckets (snd (object_list self fm p d cn w)) = S3.buckets w.
Proof.
  intros self. subst self. repeat split.
  - unfold container_list. rewrite bind_ret_snd. cbn.
    unfold S3.s3_list_buckets. now rewrite call_keeps.
  - unfold container_info, Py.bind, Py.ret. cbn.
    pose proof (call_keeps (S3.HeadBucket n) "403"
                  (fun w0 =>
                     match S3.buckets w0 !! n with
                     | Some b =>
                         if negb (String.eqb (S3.owner b) (S3.account w0))
                         then S3.fail "403" w0
                         else (Returns (mkResponse (S3.ok 200)), w0)
                     | None => S3.fail "404" w0
                     end) w) as H.
    unfold S3.s3_head_bucket.
    destruct (S3.call _ _ _ w) as [[r|e] w1]; cbn in H |- *.
    + rewrite H.
      * now destruct (status_is_200 (r_meta r)).
      * intros w0. destruct (S3.buckets w0 !! n) as [b|]; [|reflexivity].
        now destruct (negb _).
    + rewrite H; [reflexivity|].
      intros w0. destruct (S3.buckets w0 !! n) as [b|]; [|reflexivity].
      now destruct (negb _).
  - destruct (object_info_keeps loc sel k w) as [l ->]. reflexivity.
  - destruct (listed_container (S3.new_client loc sel) cn) as [b|] eqn:Hb.
    + rewrite (object_list_unfold _ _ _ _ _ _ _ Hb). unfold Py.bind at 1.
      destruct (list_objects_v2 _ _ w) as [[res|e] w1] eqn:Hres.
      * cbn in Hres.
        destruct (s3_list_objects_v2_returns _ _ _ _ Hres) as [-> ->].
        cbv zeta. destruct fm; [|reflexivity].
        rewrite bind_ret_snd.
        destruct (map_m_keeps
                    (fun o => object_info (S3.new_client loc sel) (Key o))
                    (default [] (Contents res))
                    (with_log (S3.ListObjectsV2 (list_request b p d) :: S3.log w) w)
                    (fun x w0 => object_info_keeps loc sel (Key x) w0))
          as [l ->].
        reflexivity.
      * cbn in Hres. unfold S3.s3_list_objects_v2 in Hres.
        pose proof (f_equal snd Hres) as H. rewrite call_keeps in H.
        -- cbn in H. now subst w1.
        -- intros w0. destruct (S3.buckets w0 !! _) as [bk|]; [|reflexivity].
           now destruct (negb _).
    + destruct cn as [c|]; [discriminate|]. cbn in Hb.
      unfold object_list, self_container_name, Py.bind. cbn. now rewrite Hb.
Qed.

(** ** Metadata written and read back *)

Lemma replace_run loc b k m w bk o :
  valid_metadata m = true ->
  serving w = true ->
  S3.buckets w !! b = Some bk -> S3.owner bk = S3.account w ->
  S3.find_key k (S3.objects bk) = Some o ->
  object_replace_metadata (S3.new_client loc (Some b)) k m w
  = (Returns true,
     S3.set_buckets
       (<[b := S3.set_objects
                 (S3.put_key k
                    (S3.mkStored (S3.body o) "binary/octet-stream" (S3.etag o) m)
                    (S3.objects bk)) bk]> (S3.buckets w))
       (S3.record_request
          (S3.CopyObject (mkCopyObjectRequest b k (b, k) m "REPLACE")) w)).
Proof.
  unfold serving. intros Hm [Hr Ha]%andb_true_iff Hb Ho Hk.
  unfold object_replace_metadata, self_container_name, Py.bind, Py.ret.
  cbn [container_name client S3.new_client S3.api copy_object].
  unfold S3.s3_copy_object, S3.call.
  cbn [cq_Metadata cq_CopySource cq_Bucket cq_Key cq_MetadataDirective fst snd].
  rewrite (valid_metadata_ascii m Hm), (valid_metadata_kept m Hm).
  cbn. rewrite Hr, Ha. cbn.
  rewrite Hb, Ho, String.eqb_refl. cbn. now rewrite Hk.
Qed.

Lemma put_key_twice k o l : S3.put_key k o (S3.put_key k o l) = S3.put_key k o l.
Proof.
  induction l as [|[k' o'] l IH]; cbn.
  - now rewrite String.eqb_refl.
  - destruct (String.eqb k k') eqn:E; cbn.
    + now rewrite String.eqb_refl.
    + destruct (String.ltb k k') eqn:L; cbn.
      * now rewrite String.eqb_refl.
      * now rewrite E, L, IH.
Qed.



(** X16: replacing the metadata of an object twice with the same well-formed
    mapping leaves the buckets as the first replacement left them, and both
    calls return [True]; no other bucket is touched. *)
Theorem replace_twice loc b k m w bk o :
  valid_metadata m = true ->
  serving w = true ->
  S3.buckets w !! b = Some bk -> S3.owner bk = S3.account w ->
  S3.find_key k (S3.objects bk) = Some o ->
  let self := S3.new_client loc (Some b) in
  let w1 := snd (object_replace_metadata self k m w) in
  fst (object_replace_metadata self k m w1) = Returns true
  /\ S3.buckets (snd (object_replace_metadata self k m w1)) = S3.buckets w1
  /\ forall b', b' <> b -> S3.buckets w1 !! b' = S3.buckets w !! b'.
Proof.
  intros Hm Hs Hb Ho Hk self w1. subst self w1.
  rewrite (replace_run loc b k m w bk o Hm Hs Hb Ho Hk). cbn [snd].
  set (o1 := S3.mkStored (S3.body o) "binary/octet-stream" (S3.etag o) m).
  set (bk1 := S3.set_objects (S3.put_key k o1 (S3.objects bk)) bk).
  rewrite (replace_run loc b k m _ bk1 o1).
  - cbn. split; [reflexivity|]. split.
    + subst bk1. unfold S3.set_objects. cbn.
      now rewrite insert_insert_eq, put_key_twice.
    + intros b' Hne. now rewrite lookup_insert_ne.
  - exact Hm.
  - exact Hs.
  - cbn. apply lookup_insert_eq.
  - exact Ho.
  - cbn. apply find_key_put_eq.
Qed.

Lemma replace_twice_witness :
  fst (object_replace_metadata Examples.s3 "b" ∅
         (snd (object_replace_metadata Examples.s3 "b" ∅ Examples.online)))
  = Returns true.
Proof.
  exact (proj1 (replace_twice "us-west-2" "scans" "b" ∅ Examples.online
                  (S3.mkBucket "me" "us-west-2" "t1" [("b", Examples.scan)])
                  Examples.scan eq_refl eq_refl eq_refl eq_refl eq_refl)).
Defined.

(** ** Listing under a prefix *)

Lemma rollup_items seen (l : list (string * S3.stored_object)) :
  S3.rollup seen (map (fun ko => S3.Item ko.1 ko.2) l)
  = map (fun ko => S3.Item ko.1 ko.2) l.
Proof. induction l as [|ko l IH]; [reflexivity|]. cbn. now rewrite IH. Qed.

Lemma classify_without_delimiter p (l : list (string * S3.stored_object)) :
  omap (S3.classify p None) l
  = map (fun ko => S3.Item ko.1 ko.2)
      (List.filter (fun ko => String.prefix p ko.1) l).
Proof.
  induction l as [|ko l IH]; [reflexivity|]. cbn. unfold S3.classify at 1.
  destruct (String.prefix p ko.1); cbn; now rewrite IH.
Qed.

(** X17: without a delimiter, [object_list] returns the objects of the
    container whose keys start with the prefix, in listing order and up to
    the provider's page size, and nothing else: every returned name starts
    with the prefix and is a key of the container.  An empty prefix counts
    as none. *)
Theorem object_list_under_prefix loc sel b w bk p d :
  serving w = true ->
  S3.buckets w !! b = Some bk -> S3.owner bk = S3.account w ->
  truthy d = None ->
  let pre := default EmptyString (truthy p) in
  exists l,
    object_list (S3.new_client loc sel) false p d (Some b) w
    = (Returns l, S3.record_request (S3.ListObjectsV2 (list_request b p d)) w)
    /\ omap entry_key l
       = take (S3.max_keys w)
           (map fst (List.filter (fun ko => String.prefix pre ko.1)
                       (S3.objects bk)))
    /\ forall e, e ∈ l ->
         exists o, e = EObject o
                   /\ String.prefix pre (name o) = true
                   /\ name o ∈ map fst (S3.objects bk).
Proof.
  unfold serving. intros [Hr Ha]%andb_true_iff Hb Ho Hd. cbv zeta.
  set (pre := default EmptyString (truthy p)).
  rewrite (object_list_unfold _ _ _ _ _ b) by reflexivity.
  unfold Py.bind. cbn. unfold S3.s3_list_objects_v2, S3.call. cbn.
  rewrite Hr, Ha. cbn. rewrite Hb, Ho, String.eqb_refl. cbn.
  unfold S3.enumerate. cbn [lq_Prefix lq_Delimiter list_request].
  rewrite Hd. fold pre.
  rewrite classify_without_delimiter, rollup_items, drop_0, firstn_map.
  rewrite contents_of_items, groups_of_items, default_nonempty. cbn.
  rewrite app_nil_r, map_map.
  set (kept := List.filter (fun ko => String.prefix pre ko.1) (S3.objects bk)).
  eexists. split; [reflexivity|]. split.
  - change (fun x : string * S3.stored_object =>
              EObject (listed_info
                         (mkContentEntry x.1
                            (Z.of_nat (String.length (S3.body x.2)))
                            (S3.quoted (S3.etag x.2)))))
      with (fun ko => EObject (plain_info ko)).
    now rewrite keys_of_plain, firstn_map.
  - intros e He. apply list_elem_of_In, in_map_iff in He as (ko & <- & Hin).
    eexists. split; [reflexivity|]. cbn.
    assert (Hk : In ko kept).
    { apply list_elem_of_In. apply list_elem_of_In in Hin.
      exact (subseteq_take _ _ _ Hin). }
    apply filter_In in Hk as [Hk Hp]. split; [exact Hp|].
    apply list_elem_of_In, in_map. exact Hk.
Qed.

Lemma object_list_under_prefix_witness :
  exists l,
    object_list Examples.s3 false (Some "a/") None (Some "photos")
      Examples.online
    = (Returns l,
       S3.record_request
         (S3.ListObjectsV2 (list_request "photos" (Some "a/") None))
         Examples.online)
    /\ omap entry_key l = ["a/x"; "a/y"].
Proof.
  destruct (object_list_under_prefix "us-west-2" (Some "scans") "photos"
              Examples.online
              (S3.mkBucket "me" "us-west-2" "t0"
                 [("a/x", Examples.file "1"); ("a/y", Examples.file "22");
                  ("b", Examples.file "333")])
              (Some "a/") None eq_refl eq_refl eq_refl eq_refl)
    as (l & Hl & Hk & _).
  exists l. split; [exact Hl | exact Hk].
Defined.

(** ** Enrichment when the listed container is the selected one *)

Lemma find_key_first k o (l : list (string * S3.stored_object)) :
  NoDup (map fst l) -> In (k, o) l -> S3.find_key k l = Some o.
Proof.
  induction l as [|[k' o'] l IH]; [intros _ []|].
  cbn. rewrite NoDup_cons. intros [Hk Hl] [E|Hin].
  - injection E as -> ->. now rewrite String.eqb_refl.
  - destruct (String.eqb k k') eqn:Ek; [|auto].
    apply String.eqb_eq in Ek as <-. exfalso. apply Hk.
    apply list_elem_of_In. change k with (fst (k, o)). now apply in_map.
Qed.

(** One request per key, each answered with the info of the stored
    object. *)
Lemma enrich_all loc b bk (kos : list (string * S3.stored_object)) w :
  serving w = true ->
  S3.buckets w !! b = Some bk -> S3.owner bk = S3.account w ->
  (forall ko, In ko kos -> S3.find_key ko.1 (S3.objects bk) = Some ko.2) ->
  Py.map_m (fun c => object_info (S3.new_client loc (Some b)) (Key c))
    (map (fun ko => mkContentEntry ko.1
                      (Z.of_nat (String.length (S3.body ko.2)))
                      (S3.quoted (S3.etag ko.2))) kos) w
  = (Returns (map (fun ko => Some (stored_info ko.1 ko.2)) kos),
     with_log (rev (map (fun ko => S3.HeadObject b ko.1) kos) ++ S3.log w) w).
Proof.
  unfold serving. intros [Hr Ha]%andb_true_iff Hb Ho.
  revert w Hr Ha Hb Ho. induction kos as [|ko kos IH]; intros w Hr Ha Hb Ho Hfind.
  - cbn. now rewrite with_log_same.
  - cbn [map Py.map_m Key].
    assert (E : object_info (S3.new_client loc (Some b)) ko.1 w
                = (Returns (Some (stored_info ko.1 ko.2)),
                   with_log (S3.HeadObject b ko.1 :: S3.log w) w)).
    { unfold object_info, self_container_name, Py.bind, Py.ret. cbn.
      unfold S3.s3_head_object, S3.call. cbn. rewrite Hr, Ha. cbn.
      rewrite Hb, Ho, String.eqb_refl. cbn.
      now rewrite (Hfind ko (or_introl eq_refl)). }
    rewrite (bind_returns _ _ _ _ _ E).
    rewrite (bind_returns _ _ _ _ _
               (IH (with_log (S3.HeadObject b ko.1 :: S3.log w) w)
                  Hr Ha Hb Ho (fun x Hx => Hfind x (or_intror Hx)))).
    unfold Py.ret. cbn. now rewrite <- app_assoc.
Qed.

(** X18: when the listed container is the selected one and its keys are
    distinct, enrichment succeeds for every listed object and each entry
    describes that very object: its size, type, fingerprint without quotes
    and metadata, in listing order. *)
Theorem object_list_enriches_selected loc b w bk :
  serving w = true ->
  S3.buckets w !! b = Some bk -> S3.owner bk = S3.account w ->
  NoDup (map fst (S3.objects bk)) ->
  fst (object_list (S3.new_client loc (Some b)) true None None None w)
  = Returns (map (fun ko => EObject (stored_info ko.1 ko.2))
               (take (S3.max_keys w) (S3.objects bk))).
Proof.
  intros Hs Hb Ho Hnd.
  rewrite (object_list_unfold _ _ _ _ _ b) by reflexivity.
  pose proof Hs as Hs'. unfold serving in Hs'.
  apply andb_true_iff in Hs' as [Hr Ha].
  assert (Hlist : list_objects_v2 (client (S3.new_client loc (Some b)))
                    (list_request b None None) w
                  = (Returns
                       {| lo_meta := S3.ok 200;
                          Contents :=
                            S3.nonempty
                              (map (fun ko =>
                                      mkContentEntry ko.1
                                        (Z.of_nat (String.length (S3.body ko.2)))
                                        (S3.quoted (S3.etag ko.2)))
                                 (take (S3.max_keys w) (S3.objects bk)));
                          CommonPrefixes := None;
                          IsTruncated :=
                            (S3.max_keys w <? length (S3.objects bk))%nat;
                          NextContinuationToken :=
                            if (S3.max_keys w <? length (S3.objects bk))%nat
                            then Some (0 + S3.max_keys w)%nat else None |},
                     with_log (S3.ListObjectsV2 (list_request b None None)
                               :: S3.log w) w)).
  { cbn. unfold S3.s3_list_objects_v2, S3.call. cbn. rewrite Hr, Ha. cbn.
    rewrite Hb, Ho, String.eqb_refl. cbn.
    rewrite enumerate_plain, drop_0, firstn_map.
    rewrite contents_of_items, groups_of_items, length_map. reflexivity. }
  rewrite (bind_returns _ _ _ _ _ Hlist).
  cbn [lo_meta Contents CommonPrefixes S3.ok status_is_200 HTTPStatusCode].
  change (200 =? 200) with true. cbv zeta. rewrite default_nonempty.
  rewrite (bind_returns _ _ _ _ _
             (enrich_all loc b bk (take (S3.max_keys w) (S3.objects bk))
                (with_log (S3.ListObjectsV2 (list_request b None None)
                           :: S3.log w) w)
                Hs Hb Ho
                (fun ko Hin =>
                   find_key_first ko.1 ko.2 (S3.objects bk) Hnd
                     (eq_ind _ (fun x => In x (S3.objects bk))
                        (proj1 (list_elem_of_In _ _)
                           (subseteq_take _ _ _
                              (proj2 (list_elem_of_In _ _) Hin)))
                        _ (surjective_pairing ko))))).
  unfold Py.ret. cbn. now rewrite app_nil_r, map_map.
Qed.

Lemma object_list_enriches_selected_witness :
  fst (object_list Examples.s3 true None None None Examples.online)
  = Returns [EObject (stored_info "b" Examples.scan)].
Proof.
  exact (object_list_enriches_selected "us-west-2" "scans" Examples.online
           (S3.mkBucket "me" "us-west-2" "t1" [("b", Examples.scan)])
           eq_refl eq_refl eq_refl
           (proj2 (NoDup_cons _ _) (conj (not_elem_of_nil _) (NoDup_nil_2)))).
Defined.

(** X19: a container whose [container_create] returned [True] is visible
    and empty: [container_info] returns its [ContainerInfo] and [object_list]
    returns the empty list. *)
Theorem created_container_is_empty loc sel n w :
  let self := S3.new_client loc sel in
  let w1 := snd (container_create self n w) in
  fst (container_create self n w) = Returns true ->
  fst (container_info self n w1) = Returns (Some (mkContainerInfo n None None))
  /\ fst (object_list self false None None (Some n) w1) = Returns [].
Proof.
  intros self w1. subst self w1. rewrite create_run. cbn [fst snd].
  intros Hc. injection Hc as Hc. rewrite Hc.
  unfold creatable, serving in Hc.
  apply andb_true_iff in Hc as [Hc _]. apply andb_true_iff in Hc as [Hc _].
  apply andb_true_iff in Hc as [Hr Ha]. split.
  - unfold container_info, Py.bind, Py.ret. cbn.
    unfold S3.s3_head_bucket, S3.call. cbn. rewrite Hr, Ha. cbn.
    rewrite lookup_insert_eq. cbn. now rewrite String.eqb_refl.
  - rewrite (object_list_plain loc sel n _ (fresh_bucket w loc)).
    + cbn. now rewrite firstn_nil.
    + exact Hr.
    + exact Ha.
    + cbn. apply lookup_insert_eq.
    + reflexivity.
Qed.

Lemma created_container_is_empty_witness :
  fst (container_info Examples.s3 "archive"
         (snd (container_create Examples.s3 "archive" Examples.online)))
  = Returns (Some (mkContainerInfo "archive" None None))
  /\ fst (object_list Examples.s3 false None None (Some "archive")
            (snd (container_create Examples.s3 "archive" Examples.online)))
     = Returns [].
Proof.
  exact (created_container_is_empty "us-west-2" (Some "scans") "archive"
           Examples.online eq_refl).
Defined.
